(** * Data sources of the repoflow Terraform provider

  A shallow embedding of [internal/provider/workspace_data_source.go]:
  the two [Read] handlers ([WorkspaceDataSource.Read] and
  [RepositoryDataSource.Read]), the framework values they build and the
  diagnostics they accumulate.

  Go strings are byte sequences and are modelled by [string]; a Go [error]
  is modelled by the text its [Error()] method returns, which is all the
  handlers use of it (through the [%s] verb of [fmt.Sprintf]). *)

From Stdlib Require Import ZArith Lia Bool Ascii.
From stdpp Require Import base list strings gmap.

(** ** Framework values ([terraform-plugin-framework/types]) *)

Module types.

(** [types.String]: null, unknown or a known Go string. *)
Inductive String : Type :=
| StringNull
| StringUnknown
| StringValue (s : string).

(** [ValueString] is the empty string for null and unknown values. *)
Definition ValueString (v : String) : string :=
  match v with
  | StringValue s => s
  | _ => ""
  end.

(** [StringPointerValue]: a nil pointer gives the null value. *)
Definition StringPointerValue (p : option string) : String :=
  match p with
  | None => StringNull
  | Some s => StringValue s
  end.

Inductive Bool : Type :=
| BoolNull
| BoolUnknown
| BoolValue (b : bool).

(** [types.Int64] holds a Go [int64], here a [Z] in the 64-bit range. *)
Inductive Int64 : Type :=
| Int64Null
| Int64Unknown
| Int64Value (v : Z).

Definition Int64PointerValue (p : option Z) : Int64 :=
  match p with
  | None => Int64Null
  | Some v => Int64Value v
  end.

(** [types.List] with element type [types.StringType], the only element
    type the handlers use. *)
Inductive List : Type :=
| ListNull
| ListUnknown
| ListValue (elems : list String).

End types.

(** ** Diagnostics ([terraform-plugin-framework/diag]) *)

Module diag.

Inductive Severity : Type := SeverityError | SeverityWarning.

Record Diagnostic : Type := mkDiagnostic {
  severity : Severity;
  Summary : string;
  Detail : string
}.

Definition NewErrorDiagnostic (summary detail : string) : Diagnostic :=
  mkDiagnostic SeverityError summary detail.

Definition Diagnostics : Type := list Diagnostic.

Definition is_error (d : Diagnostic) : bool :=
  match severity d with
  | SeverityError => true
  | SeverityWarning => false
  end.

Definition Equal (d e : Diagnostic) : bool :=
  match severity d, severity e with
  | SeverityError, SeverityError | SeverityWarning, SeverityWarning =>
      String.eqb (Summary d) (Summary e) && String.eqb (Detail d) (Detail e)
  | _, _ => false
  end.

Definition Contains (ds : Diagnostics) (d : Diagnostic) : bool :=
  existsb (Equal d) ds.

(** [Diagnostics.Append] skips a diagnostic the list already holds. *)
Fixpoint Append (ds : Diagnostics) (new : list Diagnostic) : Diagnostics :=
  match new with
  | [] => ds
  | d :: rest =>
      if Contains ds d then Append ds rest else Append (ds ++ [d]) rest
  end.

Definition AddError (ds : Diagnostics) (summary detail : string) : Diagnostics :=
  Append ds [NewErrorDiagnostic summary detail].

Definition HasError (ds : Diagnostics) : bool := existsb is_error ds.

(** The error-severity entries, in order ([Diagnostics.Errors]). *)
Definition Errors (ds : Diagnostics) : Diagnostics := List.filter is_error ds.

End diag.

(** ** Records returned by the API client ([go-repoflow/pkg/repoflow]) *)

Definition error : Type := string.

Module Workspace.
Record t : Type := mk { Id : string; Name : string }.
End Workspace.

Module ChildRepository.
Record t : Type := mk { Id : string }.
End ChildRepository.

Module Repository.
(** Pointer fields are options ([None] is nil). [ChildRepositories] is a
    slice: [None] is the nil slice, [Some []] an empty non-nil one. The
    cache windows are Go [int] values. *)
Record t : Type := mk {
  Id : string;
  Name : string;
  Status : string;
  PackageType : string;
  RepositoryType : string;
  RemoteRepositoryUrl : option string;
  IsRemoteCacheEnabled : bool;
  FileCacheTimeTillRevalidation : option Z;
  MetadataCacheTimeTillRevalidation : option Z;
  UploadLocalRepositoryId : option string;
  ChildRepositories : option (list ChildRepository.t)
}.
End Repository.

(** The client's two lookups; each returns a record or an error. *)
Record Client : Type := mkClient {
  GetWorkspace : string → Workspace.t + error;
  GetRepository : string → string → Repository.t + error
}.

(** ** Handlers

    A handler threads the response (diagnostics, state, and the log of
    client calls and trace records) and may [return] early. *)

Inductive Event : Type :=
| CallGetWorkspace (workspace : string)
| CallGetRepository (workspaceId repository : string)
| Trace (msg : string) (fields : list (string * string)).

Record ReadResponse (Model : Type) : Type := mkResponse {
  Diagnostics : diag.Diagnostics;
  State : option Model;
  Events : list Event
}.
Arguments mkResponse {Model}.
Arguments Diagnostics {Model}.
Arguments State {Model}.
Arguments Events {Model}.

(** What [req.Config.Get(ctx, &data)] yields: the decoded model and the
    diagnostics of the decoding. *)
Record ReadRequest (Model : Type) : Type := mkRequest {
  ConfigGet : Model * diag.Diagnostics
}.
Arguments mkRequest {Model}.
Arguments ConfigGet {Model}.

Inductive Flow (A : Type) : Type :=
| Next (a : A)
| Return.
Arguments Next {A}.
Arguments Return {A}.

Definition Handler (Model A : Type) : Type :=
  ReadResponse Model → Flow A * ReadResponse Model.

Global Instance Handler_ret {Model} : MRet (Handler Model) :=
  λ A a resp, (Next a, resp).

Global Instance Handler_bind {Model} : MBind (Handler Model) :=
  λ A B k m resp,
    match m resp with
    | (Next a, resp') => k a resp'
    | (Return, resp') => (Return, resp')
    end.

Section Primitives.
Context {Model : Type}.

Definition return_ {A} : Handler Model A := λ resp, (Return, resp).

Definition Diagnostics_Append (ds : diag.Diagnostics) : Handler Model unit :=
  λ resp, (Next tt, mkResponse (diag.Append (Diagnostics resp) ds) (State resp) (Events resp)).

Definition Diagnostics_AddError (summary detail : string) : Handler Model unit :=
  λ resp, (Next tt, mkResponse (diag.AddError (Diagnostics resp) summary detail)
                               (State resp) (Events resp)).

Definition Diagnostics_HasError : Handler Model bool :=
  λ resp, (Next (diag.HasError (Diagnostics resp)), resp).

Definition emit (e : Event) : Handler Model unit :=
  λ resp, (Next tt, mkResponse (Diagnostics resp) (State resp) (Events resp ++ [e])).

(** [resp.State.Set(ctx, &data)] stores the model; the diagnostics it
    returns are those of the framework's own encoding of a model that
    matches the schema, which are empty. *)
Definition State_Set (data : Model) : Handler Model diag.Diagnostics :=
  λ resp, (Next [], mkResponse (Diagnostics resp) (Some data) (Events resp)).

Definition call_GetWorkspace (c : Client) (workspace : string)
  : Handler Model (Workspace.t + error) :=
  emit (CallGetWorkspace workspace);; mret (GetWorkspace c workspace).

Definition call_GetRepository (c : Client) (workspaceId repository : string)
  : Handler Model (Repository.t + error) :=
  emit (CallGetRepository workspaceId repository);;
  mret (GetRepository c workspaceId repository).

(** A handler starts from a response without diagnostics or state. *)
Definition run (h : Handler Model unit) : ReadResponse Model :=
  snd (h (mkResponse [] None [])).

End Primitives.

(** ** [WorkspaceDataSource.Read] *)

Module WorkspaceResourceModel.
(** Modelled from the spec: the declaration of [WorkspaceResourceModel]
    (used by [WorkspaceDataSource.Read]) is not in the file; the reader's
    output is the pair of the workspace [Name] and [Id], the two fields
    the handler touches. *)
Record t : Type := mk { Name : types.String; Id : types.String }.
End WorkspaceResourceModel.

Module WorkspaceDataSource.
Import WorkspaceResourceModel.

Definition unable_to_get_workspace (err : error) : string :=
  "Unable to get workspace, got error: " +:+ err.

Definition Read (client : Client) (req : ReadRequest WorkspaceResourceModel.t)
  : Handler WorkspaceResourceModel.t unit :=
  let '(data, diags) := ConfigGet req in
  Diagnostics_Append diags;;
  failed ← Diagnostics_HasError;
  if failed : bool then return_ else
  let workspace := types.ValueString (Name data) in
  r ← call_GetWorkspace client workspace;
  match r with
  | inr err =>
      Diagnostics_AddError "Client Error" (unable_to_get_workspace err);;
      return_
  | inl ws =>
      let data := mk (Name data) (types.StringValue (Workspace.Id ws)) in
      let data := mk (types.StringValue (Workspace.Name ws)) (Id data) in
      emit (Trace "read workspace data"
              [("name", workspace); ("id", Workspace.Id ws)]);;
      diags ← State_Set data;
      Diagnostics_Append diags
  end.

End WorkspaceDataSource.

(** ** [RepositoryDataSource.Read] *)

Module strings.

(** [strings.Join(elems, sep)]. *)
Fixpoint Join (elems : list string) (sep : string) : string :=
  match elems with
  | [] => ""
  | [x] => x
  | x :: rest => x +:+ sep +:+ Join rest sep
  end.

(** [strings.HasPrefix(s, prefix)]. *)
Fixpoint HasPrefix (s prefix : string) {struct prefix} : bool :=
  match prefix, s with
  | EmptyString, _ => true
  | String c prefix', String d s' => Ascii.eqb c d && HasPrefix s' prefix'
  | String _ _, EmptyString => false
  end.

(** [strings.Contains(s, substr)]. *)
Fixpoint Contains (s substr : string) : bool :=
  HasPrefix s substr ||
  match s with
  | EmptyString => false
  | String _ s' => Contains s' substr
  end.

(** [strings.Cut(s, "/")]: the text before and after the first slash, or
    [None] when [s] has no slash. *)
Fixpoint CutSlash (s : string) : option (string * string) :=
  match s with
  | EmptyString => None
  | String c s' =>
      if Ascii.eqb c "/"%char then Some (EmptyString, s')
      else match CutSlash s' with
           | Some (before, after) => Some (String c before, after)
           | None => None
           end
  end.

End strings.

Module factory.

(** The 64-bit two's-complement value of an integer: Go's [int64(v)]. *)
Definition int64 (v : Z) : Z := ((v + 2 ^ 63) mod 2 ^ 64 - 2 ^ 63)%Z.

(** Modelled from the spec: [factory.IntPtrToInt64Ptr] lives in
    [internal/factory], which is not in the file. The spec describes it as
    the lossless optional-integer widening from the narrow [*int] to the
    wide [*int64] that preserves "no value": nil stays nil and a pointer
    to [v] becomes a pointer to [int64(v)]. *)
Definition IntPtrToInt64Ptr (p : option Z) : option Z :=
  match p with
  | None => None
  | Some v => Some (int64 v)
  end.

End factory.

(** The values of Go's [int]: 64 bits wide at most. *)
Definition is_int (v : Z) : Prop := (- 2 ^ 63 ≤ v < 2 ^ 63)%Z.

Module RepositoryDataSourceModel.

Record t : Type := mk {
    Name : types.String;
    Id : types.String;
    WorkspaceId : types.String;
    PackageType : types.String;
    RepositoryType : types.String;
    RepositoryId : types.String;
    RemoteRepositoryUrl : types.String;
    RemoteCacheEnabled : types.Bool;
    FileCacheTimeTillRevalidation : types.Int64;
    MetadataCacheTimeTillRevalidation : types.Int64;
    ChildRepositoryIds : types.List;
    UploadLocalRepositoryId : types.String;
    Status : types.String
  }.

(** Field assignments [data.F = v]. *)
Definition set_Name v (d : t) : t :=
  let '(mk _ a b c e f g h i j k l m) := d in mk v a b c e f g h i j k l m.
Definition set_Id v (d : t) : t :=
  let '(mk a _ b c e f g h i j k l m) := d in mk a v b c e f g h i j k l m.
Definition set_WorkspaceId v (d : t) : t :=
  let '(mk a b _ c e f g h i j k l m) := d in mk a b v c e f g h i j k l m.
Definition set_PackageType v (d : t) : t :=
  let '(mk a b c _ e f g h i j k l m) := d in mk a b c v e f g h i j k l m.
Definition set_RepositoryType v (d : t) : t :=
  let '(mk a b c e _ f g h i j k l m) := d in mk a b c e v f g h i j k l m.
Definition set_RepositoryId v (d : t) : t :=
  let '(mk a b c e f _ g h i j k l m) := d in mk a b c e f v g h i j k l m.
Definition set_RemoteRepositoryUrl v (d : t) : t :=
  let '(mk a b c e f g _ h i j k l m) := d in mk a b c e f g v h i j k l m.
Definition set_RemoteCacheEnabled v (d : t) : t :=
  let '(mk a b c e f g h _ i j k l m) := d in mk a b c e f g h v i j k l m.
Definition set_FileCacheTimeTillRevalidation v (d : t) : t :=
  let '(mk a b c e f g h i _ j k l m) := d in mk a b c e f g h i v j k l m.
Definition set_MetadataCacheTimeTillRevalidation v (d : t) : t :=
  let '(mk a b c e f g h i j _ k l m) := d in mk a b c e f g h i j v k l m.
Definition set_ChildRepositoryIds v (d : t) : t :=
  let '(mk a b c e f g h i j k _ l m) := d in mk a b c e f g h i j k v l m.
Definition set_UploadLocalRepositoryId v (d : t) : t :=
  let '(mk a b c e f g h i j k l _ m) := d in mk a b c e f g h i j k l v m.
Definition set_Status v (d : t) : t :=
  let '(mk a b c e f g h i j k l m _) := d in mk a b c e f g h i j k l m v.

End RepositoryDataSourceModel.

Module RepositoryDataSource.
Import RepositoryDataSourceModel.

Definition unable_to_get_workspace (workspaceId : string) (err : error) : string :=
  "Unable to get worksapce " +:+ workspaceId +:+ ", got error: " +:+ err.

Definition unable_to_read_repository (repository workspaceId : string) (err : error)
  : string :=
  "Unable to read repository " +:+ repository +:+ " on workspaceId " +:+ workspaceId
    +:+ ", got error: " +:+ err.

(** [for i, child := range children { ids[i] = child.Id }], from index [i]. *)
Fixpoint fill_ids (i : nat) (children : list ChildRepository.t) (ids : list string)
  : list string :=
  match children with
  | [] => ids
  | child :: rest => fill_ids (S i) rest (<[i := ChildRepository.Id child]> ids)
  end.

(** [ids := make([]string, len(children))] followed by the loop. *)
Definition child_ids (children : list ChildRepository.t) : list string :=
  fill_ids 0 children (replicate (length children) "").

Section Read.
(** [types.ListValueFrom(ctx, types.StringType, ids)] of the framework:
    a list value and the diagnostics of the conversion. *)
Variable ListValueFrom : list string → types.List * diag.Diagnostics.
Variable client : Client.

(** Lines 248-253: resolve the workspace, keep going on failure. *)
Definition resolve_workspace (workspace : string) : Handler t string :=
  let workspaceId := "" in
  r ← call_GetWorkspace client workspace;
  match r with
  | inr err =>
      Diagnostics_AddError "Client Error" (unable_to_get_workspace workspaceId err);;
      mret workspaceId
  | inl ws => mret (Workspace.Id ws)
  end.

(** Lines 264-290: the assignments that cannot fail. *)
Definition map_fields (workspaceId : string) (rp : Repository.t) (data : t) : t :=
  let data := set_Id (types.StringValue
                        (strings.Join [workspaceId; Repository.Id rp] "/")) data in
  let data := set_RepositoryId (types.StringValue (Repository.Id rp)) data in
  let data := set_WorkspaceId (types.StringValue workspaceId) data in
  let data := set_Name (types.StringValue (Repository.Name rp)) data in
  let data := set_Status (types.StringValue (Repository.Status rp)) data in
  let data :=
    if negb (String.eqb (Repository.RepositoryType rp) "")
    then set_PackageType (types.StringValue (Repository.PackageType rp)) data
    else data in
  let data :=
    if negb (String.eqb (Repository.RepositoryType rp) "")
    then set_RepositoryType (types.StringValue (Repository.RepositoryType rp)) data
    else data in
  let data := set_RemoteRepositoryUrl
                (types.StringPointerValue (Repository.RemoteRepositoryUrl rp)) data in
  let data := set_RemoteCacheEnabled
                (types.BoolValue (Repository.IsRemoteCacheEnabled rp)) data in
  let data := set_FileCacheTimeTillRevalidation
                (types.Int64PointerValue
                   (factory.IntPtrToInt64Ptr
                      (Repository.FileCacheTimeTillRevalidation rp))) data in
  let data := set_MetadataCacheTimeTillRevalidation
                (types.Int64PointerValue
                   (factory.IntPtrToInt64Ptr
                      (Repository.MetadataCacheTimeTillRevalidation rp))) data in
  set_UploadLocalRepositoryId
    (types.StringPointerValue (Repository.UploadLocalRepositoryId rp)) data.

(** Lines 293-307: the child ids; returns early when the diagnostics
    hold an error after the list conversion. *)
Definition map_children (rp : Repository.t) (data : t) : Handler t t :=
  match Repository.ChildRepositories rp with
  | None => mret (set_ChildRepositoryIds types.ListNull data)
  | Some children =>
      let ids := child_ids children in
      let '(listValue, listDiags) := ListValueFrom ids in
      Diagnostics_Append listDiags;;
      failed ← Diagnostics_HasError;
      if failed : bool then return_
      else mret (set_ChildRepositoryIds listValue data)
  end.

Definition Read (req : ReadRequest t) : Handler t unit :=
  let '(data, diags) := ConfigGet req in
  Diagnostics_Append diags;;
  failed ← Diagnostics_HasError;
  if failed : bool then return_ else
  let workspace := types.ValueString (WorkspaceId data) in
  let repository := types.ValueString (Name data) in
  workspaceId ← resolve_workspace workspace;
  r ← call_GetRepository client workspaceId repository;
  match r with
  | inr err =>
      Diagnostics_AddError "Client Error"
        (unable_to_read_repository repository workspaceId err);;
      return_
  | inl rp =>
      let data := map_fields workspaceId rp data in
      data ← map_children rp data;
      emit (Trace "read repository data"
              [("name", repository); ("id", Repository.Id rp);
               ("workspace", workspaceId)]);;
      diags ← State_Set data;
      Diagnostics_Append diags
  end.

End Read.

End RepositoryDataSource.

(** ** Notions used by the statements *)

(** The framework's [ListValueFrom] on a slice of strings: every element
    becomes a known string value and no diagnostic is produced. *)
Definition ListValueFrom_strings (ids : list string) : types.List * diag.Diagnostics :=
  (types.ListValue (map types.StringValue ids), []).

(** The contract of [ListValueFrom] the handler relies on: a conversion
    without error diagnostics yields the list of the converted elements. *)
Definition ListValueFrom_sound (f : list string → types.List * diag.Diagnostics) : Prop :=
  ∀ ids, diag.HasError (snd (f ids)) = false →
         fst (f ids) = types.ListValue (map types.StringValue ids).

(** A conversion that fails, as the handler's error branch expects it. *)
Definition ListValueFrom_failing (ids : list string) : types.List * diag.Diagnostics :=
  (types.ListUnknown,
   [diag.NewErrorDiagnostic "Value Conversion Error" "cannot build the list"]).

(** The [workspaceId] variable after lines 248-253. *)
Definition resolved_workspaceId (client : Client) (workspace : string) : string :=
  match GetWorkspace client workspace with
  | inl ws => Workspace.Id ws
  | inr _ => ""
  end.

(** The diagnostics held after lines 239-253, when the configuration was
    decoded into [cfg] without error. *)
Definition workspace_diags (client : Client) (workspace : string)
    (cfg : diag.Diagnostics) : diag.Diagnostics :=
  match GetWorkspace client workspace with
  | inl _ => diag.Append [] cfg
  | inr err =>
      diag.AddError (diag.Append [] cfg) "Client Error"
        (RepositoryDataSource.unable_to_get_workspace "" err)
  end.

(** The cache windows of a fetched repository are Go [int] values. *)
Definition int_fields (rp : Repository.t) : Prop :=
  (∀ v, Repository.FileCacheTimeTillRevalidation rp = Some v → is_int v) ∧
  (∀ v, Repository.MetadataCacheTimeTillRevalidation rp = Some v → is_int v).

(** The calls to the client among the events of a read. *)
Definition client_calls (evs : list Event) : list Event :=
  List.filter (λ e, match e with Trace _ _ => false | _ => true end) evs.

(** ** Sample upstream data *)

Module Sample.

Definition libs : Repository.t :=
  Repository.mk "r-9" "libs" "ready" "npm" "local"
    None false None (Some 0%Z) None None.

Definition mirror : Repository.t :=
  Repository.mk "r-10" "mirror" "ready" "npm" "remote"
    (Some "https://registry.npmjs.org") true (Some 60000%Z) None None None.

Definition all : Repository.t :=
  Repository.mk "r-11" "all" "ready" "npm" "virtual"
    None false None None (Some "r-9")
    (Some [ChildRepository.mk "r-9"; ChildRepository.mk "r-10"]).

Definition untyped : Repository.t :=
  Repository.mk "r-12" "untyped" "ready" "npm" ""
    None false None None None None.

(** One workspace, [acme]; the repository lookup does not check its
    workspace argument. *)
Definition client : Client :=
  mkClient
    (λ workspace,
       if String.eqb workspace "acme" then inl (Workspace.mk "w-1" "acme")
       else inr ("workspace " +:+ workspace +:+ " not found"))
    (λ _ repository,
       if String.eqb repository "libs" then inl libs
       else if String.eqb repository "mirror" then inl mirror
       else if String.eqb repository "all" then inl all
       else if String.eqb repository "untyped" then inl untyped
       else inr "connection refused").

(** A service whose workspace identifiers are paths. *)
Definition path_client : Client :=
  mkClient (λ _, inl (Workspace.mk "a/b" "team")) (λ _ _, inl libs).

(** The configuration [workspace = ws, name = nm]; the computed
    attributes are null. *)
Definition config (ws nm : string) : ReadRequest RepositoryDataSourceModel.t :=
  mkRequest
    (RepositoryDataSourceModel.mk
       (types.StringValue nm) types.StringNull (types.StringValue ws)
       types.StringNull types.StringNull types.StringNull types.StringNull
       types.BoolNull types.Int64Null types.Int64Null types.ListNull
       types.StringNull types.StringNull,
     []).

Definition workspace_config (nm : string) : ReadRequest WorkspaceResourceModel.t :=
  mkRequest (WorkspaceResourceModel.mk (types.StringValue nm) types.StringNull, []).

End Sample.

(** ** Constructors, [Metadata], [Schema] and [Configure] of the data sources *)

Module datasource.

(** [datasource.MetadataRequest] and [datasource.MetadataResponse]. *)
Record MetadataRequest : Type := mkMetadataRequest { ProviderTypeName : string }.
Record MetadataResponse : Type := mkMetadataResponse { TypeName : string }.

(** A value of Go's [any] as [Configure] inspects it: either its dynamic
    type is [*repoflow.Client] (the pointer may be nil), or it is another
    type, known by the name the [%T] verb prints. *)
Inductive any : Type :=
| ClientPointer (p : option Client)
| OtherValue (typeName : string).

(** [datasource.ConfigureRequest]; [None] is the nil interface. *)
Record ConfigureRequest : Type := mkConfigureRequest { ProviderData : option any }.

End datasource.

Module schema.

(** The kinds of attribute the two schemas use; the element type of a list
    attribute is always [types.StringType]. *)
Inductive Kind : Type := KString | KBool | KInt64 | KListOfString.

Global Instance Kind_eq_dec : EqDecision Kind.
Proof. solve_decision. Defined.

(** [schema.StringAttribute], [schema.BoolAttribute], [schema.Int64Attribute]
    and [schema.ListAttribute] with the fields the schemas set; a field
    that is not set is [false]. *)
Record Attribute : Type := mkAttribute {
  kind : Kind;
  MarkdownDescription : string;
  Required : bool;
  Computed : bool
}.

Definition StringAttribute := mkAttribute KString.
Definition BoolAttribute := mkAttribute KBool.
Definition Int64Attribute := mkAttribute KInt64.
Definition ListAttribute_StringType := mkAttribute KListOfString.

(** [schema.Schema]; [Attributes] is a Go map from attribute name. *)
Record Schema : Type := mkSchema {
  SchemaDescription : string;
  Attributes : gmap string Attribute
}.

End schema.

(** *** Workspace data source *)

(** [type WorkspaceDataSource struct { client *repoflow.Client }]. *)
Record WorkspaceDataSource_t : Type := mkWorkspaceDataSource {
  WorkspaceDataSource_client : option Client
}.

Definition NewWorkspaceDataSource : WorkspaceDataSource_t :=
  mkWorkspaceDataSource None.

(** [WorkspaceDataSourceModel] with its [tfsdk] tags. *)
Definition WorkspaceDataSourceModel_tfsdk : list (string * schema.Kind) :=
  [("name", schema.KString); ("id", schema.KString)].

Definition WorkspaceDataSource_Metadata (req : datasource.MetadataRequest)
  : datasource.MetadataResponse :=
  datasource.mkMetadataResponse (datasource.ProviderTypeName req +:+ "_workspace").

Definition WorkspaceDataSource_Schema : schema.Schema :=
  schema.mkSchema "Workspace data source"
    (<["name" := schema.StringAttribute "Workspace name" true false]>
     (<["id" := schema.StringAttribute "Workspace identifier" false true]> ∅)).

Definition unexpected_configure_type (typeName : string) : string :=
  "Expected *http.Client, got: " +:+ typeName
    +:+ ". Please report this issue to the provider developers.".

(** [Configure] threads the receiver and the diagnostics of the response. *)
Definition WorkspaceDataSource_Configure (d : WorkspaceDataSource_t)
    (req : datasource.ConfigureRequest) (diags : diag.Diagnostics)
  : WorkspaceDataSource_t * diag.Diagnostics :=
  match datasource.ProviderData req with
  | None => (d, diags)
  | Some (datasource.OtherValue typeName) =>
      (d, diag.AddError diags "Unexpected Resource Configure Type"
            (unexpected_configure_type typeName))
  | Some (datasource.ClientPointer client) => (mkWorkspaceDataSource client, diags)
  end.

(** *** Repository data source *)

Record RepositoryDataSource_t : Type := mkRepositoryDataSource {
  RepositoryDataSource_client : option Client
}.

Definition NewRepositoryDataSource : RepositoryDataSource_t :=
  mkRepositoryDataSource None.

(** The [tfsdk] tags of [RepositoryDataSourceModel], in field order. *)
Definition RepositoryDataSourceModel_tfsdk : list (string * schema.Kind) :=
  [("name", schema.KString);
   ("id", schema.KString);
   ("workspace", schema.KString);
   ("package_type", schema.KString);
   ("repository_type", schema.KString);
   ("repository_id", schema.KString);
   ("remote_repository_url", schema.KString);
   ("remote_cache_enabled", schema.KBool);
   ("file_cache_time_till_revalidation", schema.KInt64);
   ("metadata_cache_time_till_revalidation", schema.KInt64);
   ("child_repository_ids", schema.KListOfString);
   ("upload_local_repository_id", schema.KString);
   ("status", schema.KString)].

Definition RepositoryDataSource_Metadata (req : datasource.MetadataRequest)
  : datasource.MetadataResponse :=
  datasource.mkMetadataResponse (datasource.ProviderTypeName req +:+ "_repository").

Definition RepositoryDataSource_Schema : schema.Schema :=
  schema.mkSchema "Repository data source"
    (<["name" := schema.StringAttribute "Repository name" true false]>
     (<["workspace" :=
          schema.StringAttribute "Workspace used to create it (name or Id)" true false]>
     (<["repository_type" :=
          schema.StringAttribute "Repository type stored by the repository." false true]>
     (<["package_type" :=
          schema.StringAttribute "Package type stored by the repository." false true]>
     (<["remote_repository_url" :=
          schema.StringAttribute
            "URL of the remote repository (require for remote respository type)."
            false true]>
     (<["remote_cache_enabled" :=
          schema.BoolAttribute "Whether caching is enabled." false true]>
     (<["file_cache_time_till_revalidation" :=
          schema.Int64Attribute
            "Milliseconds before cached files require revalidation (null for indefinite caching)."
            false true]>
     (<["metadata_cache_time_till_revalidation" :=
          schema.Int64Attribute
            "Milliseconds before cached metadata requires revalidation (null for indefinite caching)."
            false true]>
     (<["child_repository_ids" :=
          schema.ListAttribute_StringType
            "IDs of repositories included in the virtual repository. (require for virtual repository type)"
            false true]>
     (<["upload_local_repository_id" :=
          schema.StringAttribute
            "ID of a local repository where uploads will be stored (must also be in child_repository_ids).."
            false true]>
     (<["repository_id" := schema.StringAttribute "Repository identifier" false true]>
     (<["status" := schema.StringAttribute "Status of the repository" false true]>
     (<["id" := schema.StringAttribute "Repository identifier" false true]>
        ∅))))))))))))).

Definition RepositoryDataSource_Configure (d : RepositoryDataSource_t)
    (req : datasource.ConfigureRequest) (diags : diag.Diagnostics)
  : RepositoryDataSource_t * diag.Diagnostics :=
  match datasource.ProviderData req with
  | None => (d, diags)
  | Some (datasource.OtherValue typeName) =>
      (d, diag.AddError diags "Unexpected Resource Configure Type"
            (unexpected_configure_type typeName))
  | Some (datasource.ClientPointer client) => (mkRepositoryDataSource client, diags)
  end.

(** The last byte of a string, if any. *)
Fixpoint last_byte (s : string) : option ascii :=
  match s with
  | EmptyString => None
  | String c EmptyString => Some c
  | String _ s' => last_byte s'
  end.

(** The trace records among the events of a read. *)
Definition traces (evs : list Event) : list Event :=
  List.filter (λ e, match e with Trace _ _ => true | _ => false end) evs.

(** ** Diagnostics: appending and counting errors *)

Section DiagLemmas.
Import diag.

Lemma Equal_is_error d e : Equal d e = true → is_error d = is_error e.
Proof.
  unfold Equal, is_error.
  destruct (severity d), (severity e); intros H; try reflexivity; discriminate H.
Qed.

Lemma Contains_is_error ds d :
  Contains ds d = true → is_error d = true → HasError ds = true.
Proof.
  unfold Contains, HasError. intros Hc Hd.
  apply existsb_exists in Hc as (e & Hin & Heq).
  apply existsb_exists. exists e. split; [exact Hin|].
  rewrite <- (Equal_is_error _ _ Heq). exact Hd.
Qed.

Lemma HasError_app ds es : HasError (ds ++ es) = HasError ds || HasError es.
Proof. apply existsb_app. Qed.

Lemma HasError_Append new : ∀ ds,
  HasError (Append ds new) = HasError ds || HasError new.
Proof.
  induction new as [|d rest IH]; intros ds; simpl.
  - now rewrite orb_false_r.
  - destruct (Contains ds d) eqn:Hc; rewrite IH.
    + destruct (is_error d) eqn:Hd; simpl; [|reflexivity].
      rewrite (Contains_is_error _ _ Hc Hd). reflexivity.
    + rewrite HasError_app. simpl. rewrite orb_false_r.
      now rewrite orb_assoc.
Qed.

Lemma HasError_Append_nil new : HasError (Append [] new) = HasError new.
Proof. now rewrite HasError_Append. Qed.

Lemma Errors_none ds : HasError ds = false → Errors ds = [].
Proof.
  unfold HasError, Errors. induction ds as [|d ds IH]; simpl; [reflexivity|].
  destruct (is_error d); simpl; [discriminate|exact IH].
Qed.

Lemma Errors_app ds es : Errors (ds ++ es) = Errors ds ++ Errors es.
Proof. apply List.filter_app. Qed.

Lemma AddError_fresh ds summary detail :
  HasError ds = false →
  AddError ds summary detail = ds ++ [NewErrorDiagnostic summary detail].
Proof.
  intros H. unfold AddError. simpl.
  destruct (Contains ds (NewErrorDiagnostic summary detail)) eqn:Hc; [|reflexivity].
  apply Contains_is_error in Hc; [congruence|reflexivity].
Qed.

Lemma Errors_AddError_fresh ds summary detail :
  HasError ds = false →
  Errors (AddError ds summary detail) = [NewErrorDiagnostic summary detail].
Proof.
  intros H. rewrite AddError_fresh by exact H.
  rewrite Errors_app, (Errors_none _ H). reflexivity.
Qed.

End DiagLemmas.

(** ** Strings *)

Section StringLemmas.
Import strings.

Lemma append_String (c : ascii) (a b : string) :
  String c a +:+ b = String c (a +:+ b).
Proof. reflexivity. Qed.

Lemma append_empty (b : string) : "" +:+ b = b.
Proof. reflexivity. Qed.

Lemma append_assoc (a b c : string) : (a +:+ b) +:+ c = a +:+ b +:+ c.
Proof.
  induction a as [|x a IH]; [reflexivity|].
  rewrite !append_String. f_equal. exact IH.
Qed.

Lemma HasPrefix_append (p s : string) : HasPrefix (p +:+ s) p = true.
Proof.
  induction p as [|c p IH]; [reflexivity|].
  rewrite append_String. simpl. now rewrite Ascii.eqb_refl, IH.
Qed.

Lemma Contains_append (a sub b : string) : Contains (a +:+ sub +:+ b) sub = true.
Proof.
  induction a as [|c a IH].
  - rewrite append_empty.
    assert (H : HasPrefix (sub +:+ b) sub = true) by apply HasPrefix_append.
    destruct (sub +:+ b); simpl; rewrite H; reflexivity.
  - rewrite append_String. simpl. rewrite IH. apply orb_true_r.
Qed.

(** Cutting at the first slash undoes the join when the left component
    has no slash of its own. *)
Lemma CutSlash_join (w r : string) :
  CutSlash w = None → CutSlash (w +:+ "/" +:+ r) = Some (w, r).
Proof.
  induction w as [|c w IH]; [reflexivity|].
  rewrite append_String. simpl.
  destruct (Ascii.eqb c "/"); [discriminate|].
  destruct (CutSlash w) as [[? ?]|]; [discriminate|].
  intros _. now rewrite IH.
Qed.

End StringLemmas.

(** ** The child-id loop *)

Section ChildIds.
Import RepositoryDataSource.

Lemma fill_ids_spec (children : list ChildRepository.t) : ∀ (done rest : list string),
  length rest = length children →
  fill_ids (length done) children (done ++ rest)
  = done ++ map ChildRepository.Id children.
Proof.
  induction children as [|child children IH]; intros done rest Hlen; simpl.
  - destruct rest; [reflexivity|discriminate].
  - destruct rest as [|slot rest]; [discriminate|].
    rewrite insert_app_r_alt by lia.
    rewrite Nat.sub_diag. simpl.
    replace (S (length done)) with (length (done ++ [ChildRepository.Id child]))
      by (rewrite length_app; simpl; lia).
    rewrite (cons_middle _ done rest), app_assoc.
    rewrite IH by (simpl in Hlen; lia).
    now rewrite <- app_assoc.
Qed.

(** The loop stores the [Id] of child [i] at index [i]. *)
Lemma child_ids_map (children : list ChildRepository.t) :
  child_ids children = map ChildRepository.Id children.
Proof.
  unfold child_ids.
  apply (fill_ids_spec children [] (replicate (length children) "")).
  apply length_replicate.
Qed.

End ChildIds.

(** ** Running the handlers *)

Ltac run_handler :=
  unfold run, RepositoryDataSource.Read, WorkspaceDataSource.Read,
    RepositoryDataSource.resolve_workspace, RepositoryDataSource.map_children,
    call_GetWorkspace, call_GetRepository, emit, State_Set,
    Diagnostics_Append, Diagnostics_AddError, Diagnostics_HasError, return_,
    mbind, mret, Handler_bind, Handler_ret;
  simpl.

Section RepositoryRead.
Import RepositoryDataSourceModel RepositoryDataSource.

Variable ListValueFrom : list string → types.List * diag.Diagnostics.
Variable client : Client.
Variable data : RepositoryDataSourceModel.t.
Variable cfg : diag.Diagnostics.

Let req := mkRequest (data, cfg).
Let workspace := types.ValueString (WorkspaceId data).
Let repository := types.ValueString (Name data).
Let workspaceId := resolved_workspaceId client workspace.
Let ds := workspace_diags client workspace cfg.
Let result := run (Read ListValueFrom client req).

Lemma Read_config_error :
  diag.HasError cfg = true →
  result = mkResponse (diag.Append [] cfg) None [].
Proof.
  intros Hcfg. subst result req. run_handler.
  now rewrite HasError_Append_nil, Hcfg.
Qed.

Lemma Read_repository_error err :
  diag.HasError cfg = false →
  GetRepository client workspaceId repository = inr err →
  result = mkResponse
             (diag.AddError ds "Client Error"
                (unable_to_read_repository repository workspaceId err))
             None
             [CallGetWorkspace workspace; CallGetRepository workspaceId repository].
Proof.
  intros Hcfg Hrepo.
  subst result req ds workspaceId workspace repository.
  unfold workspace_diags, resolved_workspaceId in *. run_handler.
  rewrite HasError_Append_nil, Hcfg.
  destruct (GetWorkspace client _) as [ws|e]; simpl; now rewrite Hrepo.
Qed.

Lemma Read_nil_children rp :
  diag.HasError cfg = false →
  GetRepository client workspaceId repository = inl rp →
  Repository.ChildRepositories rp = None →
  result = mkResponse ds
             (Some (set_ChildRepositoryIds types.ListNull
                      (map_fields workspaceId rp data)))
             [CallGetWorkspace workspace; CallGetRepository workspaceId repository;
              Trace "read repository data"
                [("name", repository); ("id", Repository.Id rp);
                 ("workspace", workspaceId)]].
Proof.
  intros Hcfg Hrepo Hnil.
  subst result req ds workspaceId workspace repository.
  unfold workspace_diags, resolved_workspaceId in *. run_handler.
  rewrite HasError_Append_nil, Hcfg.
  destruct (GetWorkspace client _) as [ws|e]; simpl; now rewrite Hrepo, Hnil.
Qed.

Lemma Read_children rp children :
  diag.HasError cfg = false →
  GetRepository client workspaceId repository = inl rp →
  Repository.ChildRepositories rp = Some children →
  result =
    let ds' := diag.Append ds (snd (ListValueFrom (child_ids children))) in
    if diag.HasError ds'
    then mkResponse ds' None
           [CallGetWorkspace workspace; CallGetRepository workspaceId repository]
    else mkResponse ds'
           (Some (set_ChildRepositoryIds (fst (ListValueFrom (child_ids children)))
                    (map_fields workspaceId rp data)))
           [CallGetWorkspace workspace; CallGetRepository workspaceId repository;
            Trace "read repository data"
              [("name", repository); ("id", Repository.Id rp);
               ("workspace", workspaceId)]].
Proof.
  intros Hcfg Hrepo Hsome.
  subst result req ds workspaceId workspace repository.
  unfold workspace_diags, resolved_workspaceId in *. run_handler.
  rewrite HasError_Append_nil, Hcfg.
  destruct (GetWorkspace client _) as [ws|e]; simpl; rewrite Hrepo, Hsome;
    destruct (ListValueFrom (child_ids children)) as [lv ld]; simpl;
    now destruct (diag.HasError (diag.Append _ ld)).
Qed.

(** What a written state tells about the run. *)
Lemma Read_written out :
  State result = Some out →
  diag.HasError cfg = false ∧
  ∃ rp, GetRepository client workspaceId repository = inl rp ∧
    match Repository.ChildRepositories rp with
    | None =>
        out = set_ChildRepositoryIds types.ListNull (map_fields workspaceId rp data)
    | Some children =>
        diag.HasError
          (diag.Append ds (snd (ListValueFrom (child_ids children)))) = false ∧
        out = set_ChildRepositoryIds (fst (ListValueFrom (child_ids children)))
                (map_fields workspaceId rp data)
    end.
Proof.
  intros Hout.
  destruct (diag.HasError cfg) eqn:Hcfg.
  { rewrite (Read_config_error Hcfg) in Hout. discriminate. }
  split; [reflexivity|].
  destruct (GetRepository client workspaceId repository) as [rp|err] eqn:Hrepo.
  2:{ rewrite (Read_repository_error err Hcfg Hrepo) in Hout. discriminate. }
  exists rp. split; [reflexivity|].
  destruct (Repository.ChildRepositories rp) as [children|] eqn:Hch.
  - rewrite (Read_children rp children Hcfg Hrepo Hch) in Hout. simpl in Hout.
    destruct (diag.HasError (diag.Append ds _)); simpl in Hout; [discriminate|].
    split; [reflexivity|congruence].
  - rewrite (Read_nil_children rp Hcfg Hrepo Hch) in Hout. simpl in Hout. congruence.
Qed.

End RepositoryRead.

(** ** The fields of a written repository state *)

Section MapFields.
Import RepositoryDataSourceModel RepositoryDataSource.

Variables (workspaceId : string) (rp : Repository.t) (data : t) (l : types.List).

Let out := set_ChildRepositoryIds l (map_fields workspaceId rp data).

Ltac fields :=
  subst out; destruct data; unfold map_fields; simpl;
  destruct (String.eqb (Repository.RepositoryType rp) ""); reflexivity.

Lemma written_Id :
  Id out = types.StringValue (workspaceId +:+ "/" +:+ Repository.Id rp).
Proof. fields. Qed.

Lemma written_RepositoryId : RepositoryId out = types.StringValue (Repository.Id rp).
Proof. fields. Qed.

Lemma written_WorkspaceId : WorkspaceId out = types.StringValue workspaceId.
Proof. fields. Qed.

Lemma written_PackageType :
  PackageType out =
  if String.eqb (Repository.RepositoryType rp) "" then PackageType data
  else types.StringValue (Repository.PackageType rp).
Proof. fields. Qed.

Lemma written_RepositoryType :
  RepositoryType out =
  if String.eqb (Repository.RepositoryType rp) "" then RepositoryType data
  else types.StringValue (Repository.RepositoryType rp).
Proof. fields. Qed.

Lemma written_RemoteRepositoryUrl :
  RemoteRepositoryUrl out =
  types.StringPointerValue (Repository.RemoteRepositoryUrl rp).
Proof. fields. Qed.

Lemma written_UploadLocalRepositoryId :
  UploadLocalRepositoryId out =
  types.StringPointerValue (Repository.UploadLocalRepositoryId rp).
Proof. fields. Qed.

Lemma written_FileCacheTimeTillRevalidation :
  FileCacheTimeTillRevalidation out =
  types.Int64PointerValue
    (factory.IntPtrToInt64Ptr (Repository.FileCacheTimeTillRevalidation rp)).
Proof. fields. Qed.

Lemma written_MetadataCacheTimeTillRevalidation :
  MetadataCacheTimeTillRevalidation out =
  types.Int64PointerValue
    (factory.IntPtrToInt64Ptr (Repository.MetadataCacheTimeTillRevalidation rp)).
Proof. fields. Qed.

Lemma written_ChildRepositoryIds : ChildRepositoryIds out = l.
Proof. fields. Qed.

End MapFields.

Section RepositoryReadFacts.
Import RepositoryDataSourceModel RepositoryDataSource.

Variable ListValueFrom : list string → types.List * diag.Diagnostics.
Variable client : Client.
Variable data : RepositoryDataSourceModel.t.
Variable cfg : diag.Diagnostics.

Let workspace := types.ValueString (WorkspaceId data).
Let repository := types.ValueString (Name data).
Let workspaceId := resolved_workspaceId client workspace.
Let result := run (Read ListValueFrom client (mkRequest (data, cfg))).

(** A written state is the fetched record mapped field by field, up to
    the child-id list. *)
Lemma Read_written_shape rp out :
  GetRepository client workspaceId repository = inl rp →
  State result = Some out →
  ∃ l, out = set_ChildRepositoryIds l (map_fields workspaceId rp data).
Proof.
  intros Hrepo Hout.
  destruct (Read_written ListValueFrom client data cfg out Hout) as (_ & rp' & Hrepo' & H).
  fold workspace repository workspaceId in Hrepo'.
  assert (rp' = rp) as -> by congruence.
  destruct (Repository.ChildRepositories rp); [destruct H as [_ H]|]; eauto.
Qed.

Lemma Append_extends new : ∀ ds, ∃ added, diag.Append ds new = ds ++ added.
Proof.
  induction new as [|d new IH]; intros ds; simpl.
  - exists []. now rewrite app_nil_r.
  - destruct (diag.Contains ds d); [apply IH|].
    destruct (IH (ds ++ [d])) as [added ->].
    exists (d :: added). now rewrite <- app_assoc.
Qed.

(** The diagnostics of a read extend those held after the workspace step. *)
Lemma Read_diags_extend :
  diag.HasError cfg = false →
  ∃ added, Diagnostics result = workspace_diags client workspace cfg ++ added.
Proof.
  intros Hcfg.
  destruct (GetRepository client workspaceId repository) as [rp|err] eqn:Hrepo.
  - destruct (Repository.ChildRepositories rp) as [children|] eqn:Hch.
    + subst result. rewrite (Read_children _ _ _ _ rp children Hcfg Hrepo Hch). simpl.
      destruct (Append_extends (snd (ListValueFrom (child_ids children)))
                  (workspace_diags client workspace cfg)) as [added E].
      exists added. subst workspace. rewrite <- E.
      now destruct (diag.HasError (diag.Append _ _)).
    + subst result. rewrite (Read_nil_children _ _ _ _ rp Hcfg Hrepo Hch). simpl.
      exists []. now rewrite app_nil_r.
  - subst result. rewrite (Read_repository_error _ _ _ _ err Hcfg Hrepo). simpl.
    apply Append_extends.
Qed.

(** When the workspace lookup fails its diagnostic is the first error. *)
Lemma Read_first_error err :
  diag.HasError cfg = false →
  GetWorkspace client workspace = inr err →
  hd_error (diag.Errors (Diagnostics result))
  = Some (diag.NewErrorDiagnostic "Client Error" (unable_to_get_workspace "" err)).
Proof.
  intros Hcfg Hws. destruct (Read_diags_extend Hcfg) as [added ->].
  unfold workspace_diags. rewrite Hws.
  assert (H0 : diag.HasError (diag.Append [] cfg) = false)
    by now rewrite HasError_Append_nil.
  rewrite Errors_app, (Errors_AddError_fresh _ _ _ H0). reflexivity.
Qed.

(** The client is called twice: one workspace lookup, then one repository
    lookup with the resolved workspace id. *)
Lemma Read_client_calls :
  diag.HasError cfg = false →
  client_calls (Events result)
  = [CallGetWorkspace workspace; CallGetRepository workspaceId repository].
Proof.
  intros Hcfg.
  destruct (GetRepository client workspaceId repository) as [rp|err] eqn:Hrepo.
  - destruct (Repository.ChildRepositories rp) as [children|] eqn:Hch.
    + subst result. rewrite (Read_children _ _ _ _ rp children Hcfg Hrepo Hch). simpl.
      now destruct (diag.HasError (diag.Append _ _)).
    + subst result. now rewrite (Read_nil_children _ _ _ _ rp Hcfg Hrepo Hch).
  - subst result. now rewrite (Read_repository_error _ _ _ _ err Hcfg Hrepo).
Qed.

End RepositoryReadFacts.

Lemma int64_of_int (v : Z) : is_int v → factory.int64 v = v.
Proof.
  unfold is_int, factory.int64. intros H.
  rewrite Z.mod_small by lia. lia.
Qed.

(** ** Properties of [RepositoryDataSource.Read] *)

Import RepositoryDataSourceModel.

(** C1. One test of the fetched [RepositoryType] gates both type fields:
    when it is the empty string, [PackageType] and [RepositoryType] of the
    written state are still what the configuration decoded to (null for
    these computed attributes), whatever the fetched [PackageType] is; when
    it is not empty, both are the fetched values. *)
Theorem type_fields_share_one_guard
    (ListValueFrom : list string → types.List * diag.Diagnostics)
    (client : Client) (data : RepositoryDataSourceModel.t) (cfg : diag.Diagnostics)
    (rp : Repository.t) (out : RepositoryDataSourceModel.t) :
  GetRepository client
    (resolved_workspaceId client (types.ValueString (WorkspaceId data)))
    (types.ValueString (Name data)) = inl rp →
  State (run (RepositoryDataSource.Read ListValueFrom client (mkRequest (data, cfg))))
  = Some out →
  (Repository.RepositoryType rp = "" →
     PackageType out = PackageType data ∧ RepositoryType out = RepositoryType data) ∧
  (Repository.RepositoryType rp ≠ "" →
     PackageType out = types.StringValue (Repository.PackageType rp) ∧
     RepositoryType out = types.StringValue (Repository.RepositoryType rp)).
Proof.
  intros Hrepo Hout.
  destruct (Read_written_shape _ _ _ _ _ _ Hrepo Hout) as [l ->].
  rewrite written_PackageType, written_RepositoryType.
  split; intros Hty.
  - now rewrite Hty.
  - apply String.eqb_neq in Hty. now rewrite Hty.
Qed.

Lemma type_fields_share_one_guard_witness :
  Repository.PackageType Sample.untyped = "npm" ∧
  ∃ out,
    State (run (RepositoryDataSource.Read ListValueFrom_strings Sample.client
                  (Sample.config "acme" "untyped"))) = Some out ∧
    PackageType out = types.StringNull ∧ RepositoryType out = types.StringNull.
Proof.
  split; [reflexivity|]. eexists. split; [reflexivity|].
  exact (proj1 (type_fields_share_one_guard ListValueFrom_strings Sample.client
                  (fst (ConfigGet (Sample.config "acme" "untyped"))) []
                  Sample.untyped _ eq_refl eq_refl) eq_refl).
Defined.

(** C2 (as amended). When [GetWorkspace] fails, its error is recorded as the
    first error diagnostic and the handler still calls [GetRepository], with
    the empty string as workspace id; if that call succeeds and the fetched
    [ChildRepositories] is nil, the state is written with the composite key
    ["/" + repositoryId]. *)
Theorem workspace_failure_continues
    (ListValueFrom : list string → types.List * diag.Diagnostics)
    (client : Client) (data : RepositoryDataSourceModel.t) (cfg : diag.Diagnostics)
    (err : error) :
  diag.HasError cfg = false →
  GetWorkspace client (types.ValueString (WorkspaceId data)) = inr err →
  let result :=
    run (RepositoryDataSource.Read ListValueFrom client (mkRequest (data, cfg))) in
  hd_error (diag.Errors (Diagnostics result))
  = Some (diag.NewErrorDiagnostic "Client Error"
            (RepositoryDataSource.unable_to_get_workspace "" err)) ∧
  client_calls (Events result)
  = [CallGetWorkspace (types.ValueString (WorkspaceId data));
     CallGetRepository "" (types.ValueString (Name data))] ∧
  ∀ rp, GetRepository client "" (types.ValueString (Name data)) = inl rp →
        Repository.ChildRepositories rp = None →
        ∃ out, State result = Some out ∧
               Id out = types.StringValue ("/" +:+ Repository.Id rp) ∧
               WorkspaceId out = types.StringValue "".
Proof.
  intros Hcfg Hws result.
  assert (Hid : resolved_workspaceId client (types.ValueString (WorkspaceId data)) = "")
    by (unfold resolved_workspaceId; now rewrite Hws).
  split; [|split].
  - now apply Read_first_error.
  - subst result. rewrite Read_client_calls by exact Hcfg. now rewrite Hid.
  - intros rp Hrepo Hnil. rewrite <- Hid in Hrepo.
    subst result. rewrite (Read_nil_children _ _ _ _ rp Hcfg Hrepo Hnil). simpl.
    eexists. split; [reflexivity|].
    rewrite written_Id, written_WorkspaceId, Hid. split; reflexivity.
Qed.

Lemma workspace_failure_continues_witness :
  let result := run (RepositoryDataSource.Read ListValueFrom_strings Sample.client
                       (Sample.config "ghost" "libs")) in
  client_calls (Events result) = [CallGetWorkspace "ghost"; CallGetRepository "" "libs"] ∧
  ∃ out, State result = Some out ∧
         Id out = types.StringValue "/r-9" ∧ WorkspaceId out = types.StringValue "".
Proof.
  intros result.
  destruct (workspace_failure_continues ListValueFrom_strings Sample.client
              (fst (ConfigGet (Sample.config "ghost" "libs"))) []
              "workspace ghost not found" eq_refl eq_refl) as (_ & Hcalls & Hstate).
  split; [exact Hcalls|].
  exact (Hstate Sample.libs eq_refl eq_refl).
Defined.

(** C2 as stated fails when the fetched repository has children: the error
    recorded for the workspace makes the [HasError] test that follows the
    list conversion return before the state is written. *)
Lemma workspace_failure_with_children_aborts :
  let result := run (RepositoryDataSource.Read ListValueFrom_strings Sample.client
                       (Sample.config "ghost" "all")) in
  GetWorkspace Sample.client "ghost" = inr "workspace ghost not found" ∧
  GetRepository Sample.client "" "all" = inl Sample.all ∧
  ListValueFrom_strings (RepositoryDataSource.child_ids
                           [ChildRepository.mk "r-9"; ChildRepository.mk "r-10"])
  = (types.ListValue [types.StringValue "r-9"; types.StringValue "r-10"], []) ∧
  State result = None ∧
  Diagnostics result
  = [diag.NewErrorDiagnostic "Client Error"
       "Unable to get worksapce , got error: workspace ghost not found"].
Proof. repeat split. Qed.

(** C3. When the workspace lookup succeeds and [GetRepository] fails, no
    state is written and the diagnostics hold exactly one error, whose
    message contains the repository name and the workspace id. *)
Theorem repository_failure_aborts
    (ListValueFrom : list string → types.List * diag.Diagnostics)
    (client : Client) (data : RepositoryDataSourceModel.t) (cfg : diag.Diagnostics)
    (ws : Workspace.t) (err : error) :
  diag.HasError cfg = false →
  GetWorkspace client (types.ValueString (WorkspaceId data)) = inl ws →
  GetRepository client (Workspace.Id ws) (types.ValueString (Name data)) = inr err →
  let result :=
    run (RepositoryDataSource.Read ListValueFrom client (mkRequest (data, cfg))) in
  let detail :=
    RepositoryDataSource.unable_to_read_repository
      (types.ValueString (Name data)) (Workspace.Id ws) err in
  State result = None ∧
  diag.Errors (Diagnostics result) = [diag.NewErrorDiagnostic "Client Error" detail] ∧
  strings.Contains detail (types.ValueString (Name data)) = true ∧
  strings.Contains detail (Workspace.Id ws) = true.
Proof.
  intros Hcfg Hws Hrepo result detail.
  assert (Hid : resolved_workspaceId client (types.ValueString (WorkspaceId data))
                = Workspace.Id ws)
    by (unfold resolved_workspaceId; now rewrite Hws).
  rewrite <- Hid in Hrepo.
  pose proof (Read_repository_error ListValueFrom _ _ _ err Hcfg Hrepo) as Hrun.
  fold result in Hrun. rewrite Hid in Hrun. fold detail in Hrun.
  unfold workspace_diags in Hrun. rewrite Hws in Hrun.
  rewrite Hrun. cbn [State Diagnostics].
  split; [reflexivity|]. split.
  - apply Errors_AddError_fresh. now rewrite HasError_Append_nil.
  - subst detail. unfold RepositoryDataSource.unable_to_read_repository. split.
    + apply Contains_append.
    + rewrite <- (append_assoc _ " on workspaceId "), <- append_assoc.
      apply Contains_append.
Qed.

Lemma repository_failure_aborts_witness :
  let result := run (RepositoryDataSource.Read ListValueFrom_strings Sample.client
                       (Sample.config "acme" "tools")) in
  State result = None ∧
  diag.Errors (Diagnostics result)
  = [diag.NewErrorDiagnostic "Client Error"
       "Unable to read repository tools on workspaceId w-1, got error: connection refused"].
Proof.
  intros result.
  destruct (repository_failure_aborts ListValueFrom_strings Sample.client
              (fst (ConfigGet (Sample.config "acme" "tools"))) []
              (Workspace.mk "w-1" "acme") "connection refused"
              eq_refl eq_refl eq_refl) as (Hstate & Herrors & _).
  split; [exact Hstate|exact Herrors].
Defined.

(** C4 (as amended). The [Id] of every written state is the resolved
    workspace id, a slash and the fetched repository id; cutting it at its
    first slash gives back the two components when the workspace id holds
    no slash. *)
Theorem composite_id_join_and_cut
    (ListValueFrom : list string → types.List * diag.Diagnostics)
    (client : Client) (data : RepositoryDataSourceModel.t) (cfg : diag.Diagnostics)
    (rp : Repository.t) (out : RepositoryDataSourceModel.t) :
  let workspaceId :=
    resolved_workspaceId client (types.ValueString (WorkspaceId data)) in
  GetRepository client workspaceId (types.ValueString (Name data)) = inl rp →
  State (run (RepositoryDataSource.Read ListValueFrom client (mkRequest (data, cfg))))
  = Some out →
  WorkspaceId out = types.StringValue workspaceId ∧
  RepositoryId out = types.StringValue (Repository.Id rp) ∧
  Id out = types.StringValue (workspaceId +:+ "/" +:+ Repository.Id rp) ∧
  (strings.CutSlash workspaceId = None →
   strings.CutSlash (workspaceId +:+ "/" +:+ Repository.Id rp)
   = Some (workspaceId, Repository.Id rp)).
Proof.
  intros workspaceId Hrepo Hout.
  destruct (Read_written_shape _ _ _ _ _ _ Hrepo Hout) as [l ->].
  rewrite written_Id, written_WorkspaceId, written_RepositoryId.
  repeat split. apply CutSlash_join.
Qed.

Lemma composite_id_join_and_cut_witness :
  let result := run (RepositoryDataSource.Read ListValueFrom_strings Sample.client
                       (Sample.config "acme" "libs")) in
  ∃ out, State result = Some out ∧
         Id out = types.StringValue "w-1/r-9" ∧
         strings.CutSlash "w-1/r-9" = Some ("w-1", "r-9").
Proof.
  intros result. eexists. split; [reflexivity|].
  destruct (composite_id_join_and_cut ListValueFrom_strings Sample.client
              (fst (ConfigGet (Sample.config "acme" "libs"))) []
              Sample.libs _ eq_refl eq_refl) as (_ & _ & Hid & Hcut).
  split; [exact Hid|exact (Hcut eq_refl)].
Defined.

(** C4 as stated fails for a workspace id that holds a slash: the first
    slash of the composite id then lies inside the workspace id. *)
Lemma composite_id_cut_inside_workspace_id :
  let result := run (RepositoryDataSource.Read ListValueFrom_strings Sample.path_client
                       (Sample.config "team" "libs")) in
  option_map WorkspaceId (State result) = Some (types.StringValue "a/b") ∧
  option_map RepositoryId (State result) = Some (types.StringValue "r-9") ∧
  option_map Id (State result) = Some (types.StringValue "a/b/r-9") ∧
  strings.CutSlash "a/b/r-9" = Some ("a", "b/r-9") ∧
  strings.CutSlash "a/b/r-9" ≠ Some ("a/b", "r-9").
Proof. repeat split. discriminate. Qed.

(** C5. In a written state the child ids are the null list when the fetched
    [ChildRepositories] is nil, and never the empty list then; when it holds
    N children they are a list of N known strings, entry [i] being the [Id]
    of child [i]. The list conversion is the framework's, under its
    contract [ListValueFrom_sound]. *)
Theorem child_ids_null_or_in_order
    (ListValueFrom : list string → types.List * diag.Diagnostics)
    (client : Client) (data : RepositoryDataSourceModel.t) (cfg : diag.Diagnostics)
    (rp : Repository.t) (out : RepositoryDataSourceModel.t) :
  ListValueFrom_sound ListValueFrom →
  GetRepository client
    (resolved_workspaceId client (types.ValueString (WorkspaceId data)))
    (types.ValueString (Name data)) = inl rp →
  State (run (RepositoryDataSource.Read ListValueFrom client (mkRequest (data, cfg))))
  = Some out →
  match Repository.ChildRepositories rp with
  | None =>
      ChildRepositoryIds out = types.ListNull ∧
      ChildRepositoryIds out ≠ types.ListValue []
  | Some children =>
      ∃ elems, ChildRepositoryIds out = types.ListValue elems ∧
               length elems = length children ∧
               ∀ i child, children !! i = Some child →
                          elems !! i = Some (types.StringValue (ChildRepository.Id child))
  end.
Proof.
  intros Hsound Hrepo Hout.
  destruct (Read_written _ _ _ _ _ Hout) as (_ & rp' & Hrepo' & H).
  assert (rp' = rp) as -> by congruence.
  destruct (Repository.ChildRepositories rp) as [children|].
  - destruct H as [Hok ->]. rewrite written_ChildRepositoryIds.
    rewrite HasError_Append in Hok. apply orb_false_elim in Hok as [_ Hok].
    rewrite (Hsound _ Hok), child_ids_map.
    eexists. split; [reflexivity|]. split.
    + now rewrite !length_map.
    + intros i child Hi. rewrite !list_lookup_fmap, Hi. reflexivity.
  - subst out. rewrite written_ChildRepositoryIds. split; [reflexivity|discriminate].
Qed.

Lemma child_ids_null_or_in_order_witness :
  let result := run (RepositoryDataSource.Read ListValueFrom_strings Sample.client
                       (Sample.config "acme" "all")) in
  ∃ out, State result = Some out ∧
  ∃ elems, ChildRepositoryIds out = types.ListValue elems ∧
           length elems = 2%nat ∧
           ∀ i child,
             [ChildRepository.mk "r-9"; ChildRepository.mk "r-10"] !! i = Some child →
             elems !! i = Some (types.StringValue (ChildRepository.Id child)).
Proof.
  intros result. eexists. split; [reflexivity|].
  exact (child_ids_null_or_in_order ListValueFrom_strings Sample.client
           (fst (ConfigGet (Sample.config "acme" "all"))) [] Sample.all _
           (λ ids _, eq_refl) eq_refl eq_refl).
Defined.

(** C7. In a written state each cache window is null when the fetched
    pointer is nil and the known integer [v] when it points to [v], for
    every value [v] of Go's [int], 0 included. *)
Theorem cache_windows_widened
    (ListValueFrom : list string → types.List * diag.Diagnostics)
    (client : Client) (data : RepositoryDataSourceModel.t) (cfg : diag.Diagnostics)
    (rp : Repository.t) (out : RepositoryDataSourceModel.t) :
  int_fields rp →
  GetRepository client
    (resolved_workspaceId client (types.ValueString (WorkspaceId data)))
    (types.ValueString (Name data)) = inl rp →
  State (run (RepositoryDataSource.Read ListValueFrom client (mkRequest (data, cfg))))
  = Some out →
  FileCacheTimeTillRevalidation out
  = match Repository.FileCacheTimeTillRevalidation rp with
    | None => types.Int64Null
    | Some v => types.Int64Value v
    end ∧
  MetadataCacheTimeTillRevalidation out
  = match Repository.MetadataCacheTimeTillRevalidation rp with
    | None => types.Int64Null
    | Some v => types.Int64Value v
    end.
Proof.
  intros [Hfile Hmeta] Hrepo Hout.
  destruct (Read_written_shape _ _ _ _ _ _ Hrepo Hout) as [l ->].
  rewrite written_FileCacheTimeTillRevalidation,
    written_MetadataCacheTimeTillRevalidation.
  split.
  - destruct (Repository.FileCacheTimeTillRevalidation rp) as [v|]; [|reflexivity].
    simpl. now rewrite int64_of_int by now apply Hfile.
  - destruct (Repository.MetadataCacheTimeTillRevalidation rp) as [v|]; [|reflexivity].
    simpl. now rewrite int64_of_int by now apply Hmeta.
Qed.

Lemma cache_windows_widened_witness :
  let result := run (RepositoryDataSource.Read ListValueFrom_strings Sample.client
                       (Sample.config "acme" "libs")) in
  ∃ out, State result = Some out ∧
         FileCacheTimeTillRevalidation out = types.Int64Null ∧
         MetadataCacheTimeTillRevalidation out = types.Int64Value 0.
Proof.
  intros result. eexists. split; [reflexivity|].
  refine (cache_windows_widened ListValueFrom_strings Sample.client
            (fst (ConfigGet (Sample.config "acme" "libs"))) [] Sample.libs _
            _ eq_refl eq_refl).
  split; intros v Hv; simpl in Hv; [discriminate|].
  injection Hv as <-. unfold is_int. lia.
Defined.

(** C8. In a written state [RemoteRepositoryUrl] and
    [UploadLocalRepositoryId] are null when the fetched pointer is nil (not
    the empty string) and the pointed-to string otherwise. *)
Theorem optional_strings_pass_through
    (ListValueFrom : list string → types.List * diag.Diagnostics)
    (client : Client) (data : RepositoryDataSourceModel.t) (cfg : diag.Diagnostics)
    (rp : Repository.t) (out : RepositoryDataSourceModel.t) :
  GetRepository client
    (resolved_workspaceId client (types.ValueString (WorkspaceId data)))
    (types.ValueString (Name data)) = inl rp →
  State (run (RepositoryDataSource.Read ListValueFrom client (mkRequest (data, cfg))))
  = Some out →
  RemoteRepositoryUrl out
  = match Repository.RemoteRepositoryUrl rp with
    | None => types.StringNull
    | Some url => types.StringValue url
    end ∧
  UploadLocalRepositoryId out
  = match Repository.UploadLocalRepositoryId rp with
    | None => types.StringNull
    | Some id => types.StringValue id
    end ∧
  (Repository.RemoteRepositoryUrl rp = None →
   RemoteRepositoryUrl out ≠ types.StringValue "") ∧
  (Repository.UploadLocalRepositoryId rp = None →
   UploadLocalRepositoryId out ≠ types.StringValue "").
Proof.
  intros Hrepo Hout.
  destruct (Read_written_shape _ _ _ _ _ _ Hrepo Hout) as [l ->].
  rewrite written_RemoteRepositoryUrl, written_UploadLocalRepositoryId.
  repeat split; intros ->; discriminate.
Qed.

Lemma optional_strings_pass_through_witness :
  let result := run (RepositoryDataSource.Read ListValueFrom_strings Sample.client
                       (Sample.config "acme" "mirror")) in
  ∃ out, State result = Some out ∧
         RemoteRepositoryUrl out = types.StringValue "https://registry.npmjs.org" ∧
         UploadLocalRepositoryId out = types.StringNull.
Proof.
  intros result. eexists. split; [reflexivity|].
  destruct (optional_strings_pass_through ListValueFrom_strings Sample.client
              (fst (ConfigGet (Sample.config "acme" "mirror"))) [] Sample.mirror _
              eq_refl eq_refl) as (Hurl & Hupload & _).
  split; [exact Hurl|exact Hupload].
Defined.

(** C9. When the conversion of the child ids to a list reports an error,
    the handler returns before [State.Set]: no state is written. *)
Theorem failed_list_conversion_aborts
    (ListValueFrom : list string → types.List * diag.Diagnostics)
    (client : Client) (data : RepositoryDataSourceModel.t) (cfg : diag.Diagnostics)
    (rp : Repository.t) (children : list ChildRepository.t) :
  GetRepository client
    (resolved_workspaceId client (types.ValueString (WorkspaceId data)))
    (types.ValueString (Name data)) = inl rp →
  Repository.ChildRepositories rp = Some children →
  diag.HasError (snd (ListValueFrom (RepositoryDataSource.child_ids children))) = true →
  State (run (RepositoryDataSource.Read ListValueFrom client (mkRequest (data, cfg))))
  = None.
Proof.
  intros Hrepo Hch Hfail.
  destruct (State _) as [out|] eqn:Hout; [|reflexivity].
  destruct (Read_written _ _ _ _ _ Hout) as (_ & rp' & Hrepo' & H).
  assert (rp' = rp) as -> by congruence.
  rewrite Hch in H. destruct H as [Hok _].
  rewrite HasError_Append, Hfail, orb_true_r in Hok. discriminate.
Qed.

Lemma failed_list_conversion_aborts_witness :
  State (run (RepositoryDataSource.Read ListValueFrom_failing Sample.client
                (Sample.config "acme" "all"))) = None.
Proof.
  exact (failed_list_conversion_aborts ListValueFrom_failing Sample.client
           (fst (ConfigGet (Sample.config "acme" "all"))) [] Sample.all
           [ChildRepository.mk "r-9"; ChildRepository.mk "r-10"]
           eq_refl eq_refl eq_refl).
Defined.

(** C10 (as amended). The diagnostic recorded for a failed workspace lookup
    interpolates the local [workspaceId], still the empty string, and not
    the workspace of the configuration: its message is exactly
    "Unable to get worksapce , got error: " followed by the error text, so
    it reports an empty workspace identifier and is the same for every
    requested workspace whose lookup fails with that error text. *)
Theorem workspace_failure_message
    (ListValueFrom : list string → types.List * diag.Diagnostics)
    (client : Client) (data : RepositoryDataSourceModel.t) (cfg : diag.Diagnostics)
    (err : error) :
  diag.HasError cfg = false →
  GetWorkspace client (types.ValueString (WorkspaceId data)) = inr err →
  let reported :=
    hd_error
      (diag.Errors
         (Diagnostics
            (run (RepositoryDataSource.Read ListValueFrom client
                    (mkRequest (data, cfg)))))) in
  reported
  = Some (diag.NewErrorDiagnostic "Client Error"
            (RepositoryDataSource.unable_to_get_workspace "" err)) ∧
  reported
  = Some (diag.NewErrorDiagnostic "Client Error"
            ("Unable to get worksapce , got error: " +:+ err)) ∧
  ∀ ListValueFrom' client' data' cfg',
    diag.HasError cfg' = false →
    GetWorkspace client' (types.ValueString (WorkspaceId data')) = inr err →
    hd_error
      (diag.Errors
         (Diagnostics
            (run (RepositoryDataSource.Read ListValueFrom' client'
                    (mkRequest (data', cfg'))))))
    = reported.
Proof.
  intros Hcfg Hws reported. subst reported.
  rewrite (Read_first_error _ _ _ _ err Hcfg Hws).
  split; [reflexivity|]. split; [reflexivity|].
  intros ListValueFrom' client' data' cfg' Hcfg' Hws'.
  now rewrite (Read_first_error _ _ _ _ err Hcfg' Hws').
Qed.

Lemma workspace_failure_message_witness :
  hd_error
    (diag.Errors
       (Diagnostics
          (run (RepositoryDataSource.Read ListValueFrom_strings Sample.client
                  (Sample.config "ghost" "tools")))))
  = Some (diag.NewErrorDiagnostic "Client Error"
            "Unable to get worksapce , got error: workspace ghost not found") ∧
  hd_error
    (diag.Errors
       (Diagnostics
          (run (RepositoryDataSource.Read ListValueFrom_failing
                  (mkClient (λ _, inr "workspace ghost not found")
                            (λ _ _, inr "connection refused"))
                  (Sample.config "acme" "libs")))))
  = hd_error
      (diag.Errors
         (Diagnostics
            (run (RepositoryDataSource.Read ListValueFrom_strings Sample.client
                    (Sample.config "ghost" "tools"))))).
Proof.
  destruct (workspace_failure_message ListValueFrom_strings Sample.client
              (fst (ConfigGet (Sample.config "ghost" "tools"))) []
              "workspace ghost not found" eq_refl eq_refl) as (_ & Hmsg & Hsame).
  split; [exact Hmsg|].
  exact (Hsame ListValueFrom_failing
           (mkClient (λ _, inr "workspace ghost not found")
                     (λ _ _, inr "connection refused"))
           (fst (ConfigGet (Sample.config "acme" "libs"))) [] eq_refl eq_refl).
Defined.

(** C10 as stated fails when the client's error text names the workspace:
    the message then contains the requested workspace reference. *)
Lemma workspace_failure_message_names_workspace :
  let result := run (RepositoryDataSource.Read ListValueFrom_strings Sample.client
                       (Sample.config "ghost" "libs")) in
  GetWorkspace Sample.client "ghost" = inr "workspace ghost not found" ∧
  Diagnostics result
  = [diag.NewErrorDiagnostic "Client Error"
       "Unable to get worksapce , got error: workspace ghost not found"] ∧
  strings.Contains "Unable to get worksapce , got error: workspace ghost not found"
    "ghost" = true.
Proof. repeat split. Qed.

(** ** Properties of [WorkspaceDataSource.Read] *)

Section WorkspaceRead.
Variable client : Client.
Variable data : WorkspaceResourceModel.t.
Variable cfg : diag.Diagnostics.

Let workspace := types.ValueString (WorkspaceResourceModel.Name data).
Let result := run (WorkspaceDataSource.Read client (mkRequest (data, cfg))).

Lemma workspace_Read_found ws :
  diag.HasError cfg = false →
  GetWorkspace client workspace = inl ws →
  result = mkResponse (diag.Append [] cfg)
             (Some (WorkspaceResourceModel.mk
                      (types.StringValue (Workspace.Name ws))
                      (types.StringValue (Workspace.Id ws))))
             [CallGetWorkspace workspace;
              Trace "read workspace data"
                [("name", workspace); ("id", Workspace.Id ws)]].
Proof.
  intros Hcfg Hws. subst result workspace. run_handler.
  now rewrite HasError_Append_nil, Hcfg, Hws.
Qed.

Lemma workspace_Read_failed err :
  diag.HasError cfg = false →
  GetWorkspace client workspace = inr err →
  result = mkResponse
             (diag.AddError (diag.Append [] cfg) "Client Error"
                (WorkspaceDataSource.unable_to_get_workspace err))
             None
             [CallGetWorkspace workspace].
Proof.
  intros Hcfg Hws. subst result workspace. run_handler.
  now rewrite HasError_Append_nil, Hcfg, Hws.
Qed.

End WorkspaceRead.

(** C6. Once the configuration is decoded, the workspace read writes state
    exactly when [GetWorkspace] succeeds. On success the state holds the
    returned [Id] and [Name] unchanged and no error is reported; on failure
    nothing is written and the one error diagnostic carries the error text.
    Either way the client is called once. *)
Theorem workspace_read_follows_lookup
    (client : Client) (data : WorkspaceResourceModel.t) (cfg : diag.Diagnostics) :
  diag.HasError cfg = false →
  let workspace := types.ValueString (WorkspaceResourceModel.Name data) in
  let result := run (WorkspaceDataSource.Read client (mkRequest (data, cfg))) in
  (is_Some (State result) ↔ ∃ ws, GetWorkspace client workspace = inl ws) ∧
  (∀ ws, GetWorkspace client workspace = inl ws →
     State result
     = Some (WorkspaceResourceModel.mk (types.StringValue (Workspace.Name ws))
                                       (types.StringValue (Workspace.Id ws))) ∧
     diag.Errors (Diagnostics result) = []) ∧
  (∀ err, GetWorkspace client workspace = inr err →
     State result = None ∧
     diag.Errors (Diagnostics result)
     = [diag.NewErrorDiagnostic "Client Error"
          ("Unable to get workspace, got error: " +:+ err)]) ∧
  client_calls (Events result) = [CallGetWorkspace workspace].
Proof.
  intros Hcfg workspace result.
  assert (H0 : diag.HasError (diag.Append [] cfg) = false)
    by now rewrite HasError_Append_nil.
  destruct (GetWorkspace client workspace) as [ws|err] eqn:Hws.
  - pose proof (workspace_Read_found client data cfg ws Hcfg Hws) as Hrun.
    fold result in Hrun. rewrite Hrun. cbn [State Diagnostics Events].
    split; [|split; [|split]].
    + split; eauto.
    + intros ws' [= <-]. split; [reflexivity|now apply Errors_none].
    + intros err [=].
    + reflexivity.
  - pose proof (workspace_Read_failed client data cfg err Hcfg Hws) as Hrun.
    fold result in Hrun. rewrite Hrun. cbn [State Diagnostics Events].
    split; [|split; [|split]].
    + split; [intros [? [=]]|intros [? [=]]].
    + intros ws [=].
    + intros err' [= <-]. split; [reflexivity|].
      now apply Errors_AddError_fresh.
    + reflexivity.
Qed.

Lemma workspace_read_follows_lookup_witness :
  let result := run (WorkspaceDataSource.Read Sample.client
                       (Sample.workspace_config "acme")) in
  State result
  = Some (WorkspaceResourceModel.mk (types.StringValue "acme") (types.StringValue "w-1")) ∧
  client_calls (Events result) = [CallGetWorkspace "acme"].
Proof.
  intros result.
  destruct (workspace_read_follows_lookup Sample.client
              (fst (ConfigGet (Sample.workspace_config "acme"))) [] eq_refl)
    as (_ & Hfound & _ & Hcalls).
  split; [exact (proj1 (Hfound (Workspace.mk "w-1" "acme") eq_refl))|exact Hcalls].
Defined.


(** ** Further properties of [RepositoryDataSource.Read] *)

Section RepositoryReadMore.
Import RepositoryDataSource.

Variable ListValueFrom : list string → types.List * diag.Diagnostics.
Variable client : Client.

Lemma workspace_diags_HasError workspace cfg :
  diag.HasError cfg = false →
  diag.HasError (workspace_diags client workspace cfg)
  = match GetWorkspace client workspace with inl _ => false | inr _ => true end.
Proof.
  intros Hcfg. unfold workspace_diags.
  destruct (GetWorkspace client workspace).
  - now rewrite HasError_Append_nil.
  - unfold diag.AddError. rewrite HasError_Append. apply orb_true_r.
Qed.

Lemma map_fields_same_type_fields workspaceId rp l (data1 data2 : t) :
  PackageType data1 = PackageType data2 →
  RepositoryType data1 = RepositoryType data2 →
  set_ChildRepositoryIds l (map_fields workspaceId rp data1)
  = set_ChildRepositoryIds l (map_fields workspaceId rp data2).
Proof.
  destruct data1, data2. simpl. intros -> ->. unfold map_fields. simpl.
  destruct (String.eqb (Repository.RepositoryType rp) ""); reflexivity.
Qed.

Lemma written_core_fields workspaceId rp l (data : t) :
  let out := set_ChildRepositoryIds l (map_fields workspaceId rp data) in
  Name out = types.StringValue (Repository.Name rp) ∧
  Status out = types.StringValue (Repository.Status rp) ∧
  RemoteCacheEnabled out = types.BoolValue (Repository.IsRemoteCacheEnabled rp).
Proof.
  destruct data. unfold map_fields. simpl.
  destruct (String.eqb (Repository.RepositoryType rp) ""); repeat split.
Qed.

End RepositoryReadMore.

(** X1. A configuration that does not decode stops the repository read at
    once: the client is not called, nothing is traced, no state is written
    and the diagnostics are those of the decoding. *)
Theorem repository_read_stops_on_config_error
    (ListValueFrom : list string → types.List * diag.Diagnostics)
    (client : Client) (data : RepositoryDataSourceModel.t) (cfg : diag.Diagnostics) :
  diag.HasError cfg = true →
  run (RepositoryDataSource.Read ListValueFrom client (mkRequest (data, cfg)))
  = mkResponse (diag.Append [] cfg) None [].
Proof.
  intros Hcfg. run_handler.
  rewrite HasError_Append_nil, Hcfg. reflexivity.
Qed.

Lemma repository_read_stops_on_config_error_witness :
  run (RepositoryDataSource.Read ListValueFrom_strings Sample.client
         (mkRequest (fst (ConfigGet (Sample.config "acme" "libs")),
                     [diag.NewErrorDiagnostic "Value Conversion Error" "not a string"])))
  = mkResponse [diag.NewErrorDiagnostic "Value Conversion Error" "not a string"] None [].
Proof.
  exact (repository_read_stops_on_config_error ListValueFrom_strings Sample.client
           (fst (ConfigGet (Sample.config "acme" "libs")))
           [diag.NewErrorDiagnostic "Value Conversion Error" "not a string"] eq_refl).
Defined.

(** X2. The repository read calls the client twice when the configuration
    decodes, whatever the lookups return: [GetWorkspace] on the configured
    workspace, then [GetRepository] on the resolved workspace id and the
    configured name; it makes no call otherwise. *)
Theorem repository_read_client_calls
    (ListValueFrom : list string → types.List * diag.Diagnostics)
    (client : Client) (data : RepositoryDataSourceModel.t) (cfg : diag.Diagnostics) :
  client_calls
    (Events (run (RepositoryDataSource.Read ListValueFrom client (mkRequest (data, cfg)))))
  = if diag.HasError cfg then []
    else [CallGetWorkspace (types.ValueString (WorkspaceId data));
          CallGetRepository
            (resolved_workspaceId client (types.ValueString (WorkspaceId data)))
            (types.ValueString (Name data))].
Proof.
  destruct (diag.HasError cfg) eqn:Hcfg.
  - now rewrite (Read_config_error _ _ _ _ Hcfg).
  - now apply Read_client_calls.
Qed.

(** X3. The repository read never fails silently: when no state is written
    the diagnostics hold an error. *)
Theorem repository_read_reports_failure
    (ListValueFrom : list string → types.List * diag.Diagnostics)
    (client : Client) (data : RepositoryDataSourceModel.t) (cfg : diag.Diagnostics) :
  State (run (RepositoryDataSource.Read ListValueFrom client (mkRequest (data, cfg))))
  = None →
  diag.HasError
    (Diagnostics
       (run (RepositoryDataSource.Read ListValueFrom client (mkRequest (data, cfg)))))
  = true.
Proof.
  destruct (diag.HasError cfg) eqn:Hcfg.
  { rewrite (Read_config_error _ _ _ _ Hcfg). cbn [State Diagnostics].
    now rewrite HasError_Append_nil. }
  destruct (GetRepository client
              (resolved_workspaceId client (types.ValueString (WorkspaceId data)))
              (types.ValueString (Name data))) as [rp|err] eqn:Hrepo.
  2:{ rewrite (Read_repository_error _ _ _ _ err Hcfg Hrepo). cbn [State Diagnostics].
      intros _. unfold diag.AddError. rewrite HasError_Append. apply orb_true_r. }
  destruct (Repository.ChildRepositories rp) as [children|] eqn:Hch.
  - rewrite (Read_children _ _ _ _ rp children Hcfg Hrepo Hch). cbv zeta.
    destruct (diag.HasError (diag.Append _ _)) eqn:E; cbn [State Diagnostics];
      [intros _; exact E|discriminate].
  - rewrite (Read_nil_children _ _ _ _ rp Hcfg Hrepo Hch). discriminate.
Qed.

Lemma repository_read_reports_failure_witness :
  diag.HasError
    (Diagnostics
       (run (RepositoryDataSource.Read ListValueFrom_failing Sample.client
               (Sample.config "acme" "all"))))
  = true.
Proof.
  exact (repository_read_reports_failure ListValueFrom_failing Sample.client
           (fst (ConfigGet (Sample.config "acme" "all"))) [] eq_refl).
Defined.

(** X4. When the workspace lookup fails and the repository fetched with the
    empty workspace id has a non-nil [ChildRepositories], no state is
    written, whatever the list conversion returns. *)
Theorem workspace_failure_with_children_never_writes
    (ListValueFrom : list string → types.List * diag.Diagnostics)
    (client : Client) (data : RepositoryDataSourceModel.t) (cfg : diag.Diagnostics)
    (err : error) (rp : Repository.t) (children : list ChildRepository.t) :
  GetWorkspace client (types.ValueString (WorkspaceId data)) = inr err →
  GetRepository client "" (types.ValueString (Name data)) = inl rp →
  Repository.ChildRepositories rp = Some children →
  State (run (RepositoryDataSource.Read ListValueFrom client (mkRequest (data, cfg))))
  = None.
Proof.
  intros Hws Hrepo Hch.
  destruct (State _) as [out|] eqn:Hout; [|reflexivity].
  destruct (Read_written _ _ _ _ _ Hout) as (Hcfg & rp' & Hrepo' & H).
  unfold resolved_workspaceId in Hrepo'. rewrite Hws in Hrepo'.
  assert (rp' = rp) as -> by congruence.
  rewrite Hch in H. destruct H as [Hok _].
  rewrite HasError_Append, (workspace_diags_HasError _ _ _ Hcfg), Hws in Hok.
  discriminate.
Qed.

Lemma workspace_failure_with_children_never_writes_witness :
  State (run (RepositoryDataSource.Read ListValueFrom_strings Sample.client
                (Sample.config "ghost" "all"))) = None.
Proof.
  exact (workspace_failure_with_children_never_writes ListValueFrom_strings
           Sample.client (fst (ConfigGet (Sample.config "ghost" "all"))) []
           "workspace ghost not found" Sample.all
           [ChildRepository.mk "r-9"; ChildRepository.mk "r-10"]
           eq_refl eq_refl eq_refl).
Defined.

(** X5. The repository read writes state exactly when the configuration
    decodes, [GetRepository] succeeds on the resolved workspace id, and
    either the fetched [ChildRepositories] is nil, or the workspace lookup
    succeeded and the list conversion reports no error. *)
Theorem repository_read_writes_iff
    (ListValueFrom : list string → types.List * diag.Diagnostics)
    (client : Client) (data : RepositoryDataSourceModel.t) (cfg : diag.Diagnostics) :
  is_Some
    (State (run (RepositoryDataSource.Read ListValueFrom client (mkRequest (data, cfg)))))
  ↔ diag.HasError cfg = false ∧
    ∃ rp,
      GetRepository client
        (resolved_workspaceId client (types.ValueString (WorkspaceId data)))
        (types.ValueString (Name data)) = inl rp ∧
      match Repository.ChildRepositories rp with
      | None => True
      | Some children =>
          (∃ ws, GetWorkspace client (types.ValueString (WorkspaceId data)) = inl ws) ∧
          diag.HasError (snd (ListValueFrom (RepositoryDataSource.child_ids children)))
          = false
      end.
Proof.
  split.
  - intros [out Hout].
    destruct (Read_written _ _ _ _ _ Hout) as (Hcfg & rp & Hrepo & H).
    split; [exact Hcfg|]. exists rp. split; [exact Hrepo|].
    destruct (Repository.ChildRepositories rp) as [children|]; [|exact I].
    destruct H as [Hok _].
    rewrite HasError_Append, (workspace_diags_HasError _ _ _ Hcfg) in Hok.
    apply orb_false_elim in Hok as [Hws Hconv]. split; [|exact Hconv].
    destruct (GetWorkspace client _) as [ws|]; [eauto|discriminate].
  - intros (Hcfg & rp & Hrepo & H).
    destruct (Repository.ChildRepositories rp) as [children|] eqn:Hch.
    + destruct H as [[ws Hws] Hconv].
      rewrite (Read_children _ _ _ _ rp children Hcfg Hrepo Hch). cbv zeta.
      rewrite HasError_Append, (workspace_diags_HasError _ _ _ Hcfg), Hws, Hconv.
      cbn. eauto.
    + rewrite (Read_nil_children _ _ _ _ rp Hcfg Hrepo Hch). cbn. eauto.
Qed.

(** X6. A written repository state comes with an error diagnostic exactly
    when the workspace lookup failed. *)
Theorem written_state_has_error_iff_workspace_failed
    (ListValueFrom : list string → types.List * diag.Diagnostics)
    (client : Client) (data : RepositoryDataSourceModel.t) (cfg : diag.Diagnostics)
    (out : RepositoryDataSourceModel.t) :
  State (run (RepositoryDataSource.Read ListValueFrom client (mkRequest (data, cfg))))
  = Some out →
  diag.HasError
    (Diagnostics
       (run (RepositoryDataSource.Read ListValueFrom client (mkRequest (data, cfg)))))
  = true
  ↔ ∃ err, GetWorkspace client (types.ValueString (WorkspaceId data)) = inr err.
Proof.
  intros Hout.
  destruct (Read_written _ _ _ _ _ Hout) as (Hcfg & rp & Hrepo & H).
  destruct (Repository.ChildRepositories rp) as [children|] eqn:Hch.
  - destruct H as [Hok _].
    rewrite (Read_children _ _ _ _ rp children Hcfg Hrepo Hch). cbv zeta.
    rewrite Hok. cbn [Diagnostics]. rewrite Hok.
    rewrite HasError_Append, (workspace_diags_HasError _ _ _ Hcfg) in Hok.
    apply orb_false_elim in Hok as [Hws _].
    destruct (GetWorkspace client _); [|discriminate].
    split; [discriminate|intros [? [=]]].
  - rewrite (Read_nil_children _ _ _ _ rp Hcfg Hrepo Hch). cbn [Diagnostics].
    rewrite (workspace_diags_HasError _ _ _ Hcfg).
    destruct (GetWorkspace client _) as [ws|err].
    + split; [discriminate|intros [? [=]]].
    + split; eauto.
Qed.

Lemma written_state_has_error_iff_workspace_failed_witness :
  diag.HasError
    (Diagnostics
       (run (RepositoryDataSource.Read ListValueFrom_strings Sample.client
               (Sample.config "ghost" "libs"))))
  = true.
Proof.
  refine (proj2 (written_state_has_error_iff_workspace_failed ListValueFrom_strings
                   Sample.client (fst (ConfigGet (Sample.config "ghost" "libs"))) []
                   _ eq_refl) _).
  exists "workspace ghost not found". reflexivity.
Defined.

(** X7. In a written repository state [Name] and [Status] are the fetched
    ones (the configured name is replaced) and [RemoteCacheEnabled] is the
    known boolean [IsRemoteCacheEnabled], never null. *)
Theorem core_fields_copied
    (ListValueFrom : list string → types.List * diag.Diagnostics)
    (client : Client) (data : RepositoryDataSourceModel.t) (cfg : diag.Diagnostics)
    (rp : Repository.t) (out : RepositoryDataSourceModel.t) :
  GetRepository client
    (resolved_workspaceId client (types.ValueString (WorkspaceId data)))
    (types.ValueString (Name data)) = inl rp →
  State (run (RepositoryDataSource.Read ListValueFrom client (mkRequest (data, cfg))))
  = Some out →
  Name out = types.StringValue (Repository.Name rp) ∧
  Status out = types.StringValue (Repository.Status rp) ∧
  RemoteCacheEnabled out = types.BoolValue (Repository.IsRemoteCacheEnabled rp).
Proof.
  intros Hrepo Hout.
  destruct (Read_written_shape _ _ _ _ _ _ Hrepo Hout) as [l ->].
  apply written_core_fields.
Qed.

Lemma core_fields_copied_witness :
  ∃ out,
    State (run (RepositoryDataSource.Read ListValueFrom_strings Sample.client
                  (Sample.config "acme" "mirror"))) = Some out ∧
    Name out = types.StringValue "mirror" ∧
    Status out = types.StringValue "ready" ∧
    RemoteCacheEnabled out = types.BoolValue true.
Proof.
  eexists. split; [reflexivity|].
  exact (core_fields_copied ListValueFrom_strings Sample.client
           (fst (ConfigGet (Sample.config "acme" "mirror"))) [] Sample.mirror _
           eq_refl eq_refl).
Defined.

(** X8. The repository read uses the decoded configuration only through
    the strings of [name] and [workspace] and through the two type fields:
    two configurations that agree on these give the same response. *)
Theorem read_ignores_other_config_fields
    (ListValueFrom : list string → types.List * diag.Diagnostics)
    (client : Client) (data1 data2 : RepositoryDataSourceModel.t)
    (cfg : diag.Diagnostics) :
  types.ValueString (Name data1) = types.ValueString (Name data2) →
  types.ValueString (WorkspaceId data1) = types.ValueString (WorkspaceId data2) →
  PackageType data1 = PackageType data2 →
  RepositoryType data1 = RepositoryType data2 →
  run (RepositoryDataSource.Read ListValueFrom client (mkRequest (data1, cfg)))
  = run (RepositoryDataSource.Read ListValueFrom client (mkRequest (data2, cfg))).
Proof.
  intros Hname Hws Hpkg Hty.
  destruct (diag.HasError cfg) eqn:Hcfg.
  { now rewrite !(Read_config_error _ _ _ _ Hcfg). }
  destruct (GetRepository client
              (resolved_workspaceId client (types.ValueString (WorkspaceId data1)))
              (types.ValueString (Name data1))) as [rp|err] eqn:Hrepo1.
  - assert (Hrepo2 := Hrepo1). rewrite Hname, Hws in Hrepo2.
    destruct (Repository.ChildRepositories rp) as [children|] eqn:Hch.
    + rewrite (Read_children _ _ _ _ rp children Hcfg Hrepo1 Hch),
        (Read_children _ _ _ _ rp children Hcfg Hrepo2 Hch).
      now rewrite Hname, Hws, (map_fields_same_type_fields _ _ _ _ _ Hpkg Hty).
    + rewrite (Read_nil_children _ _ _ _ rp Hcfg Hrepo1 Hch),
        (Read_nil_children _ _ _ _ rp Hcfg Hrepo2 Hch).
      now rewrite Hname, Hws, (map_fields_same_type_fields _ _ _ _ _ Hpkg Hty).
  - assert (Hrepo2 := Hrepo1). rewrite Hname, Hws in Hrepo2.
    rewrite (Read_repository_error _ _ _ _ err Hcfg Hrepo1),
      (Read_repository_error _ _ _ _ err Hcfg Hrepo2).
    now rewrite Hname, Hws.
Qed.

Lemma read_ignores_other_config_fields_witness :
  run (RepositoryDataSource.Read ListValueFrom_strings Sample.client
         (Sample.config "acme" "all"))
  = run (RepositoryDataSource.Read ListValueFrom_strings Sample.client
           (mkRequest
              (RepositoryDataSourceModel.mk
                 (types.StringValue "all") (types.StringValue "stale")
                 (types.StringValue "acme") types.StringNull types.StringNull
                 types.StringUnknown (types.StringValue "http://old")
                 (types.BoolValue true) (types.Int64Value 5) types.Int64Unknown
                 (types.ListValue []) (types.StringValue "r-0") types.StringUnknown,
               []))).
Proof.
  exact (read_ignores_other_config_fields ListValueFrom_strings Sample.client
           (fst (ConfigGet (Sample.config "acme" "all")))
           (RepositoryDataSourceModel.mk
              (types.StringValue "all") (types.StringValue "stale")
              (types.StringValue "acme") types.StringNull types.StringNull
              types.StringUnknown (types.StringValue "http://old")
              (types.BoolValue true) (types.Int64Value 5) types.Int64Unknown
              (types.ListValue []) (types.StringValue "r-0") types.StringUnknown)
           [] eq_refl eq_refl eq_refl eq_refl).
Defined.

(** X9. The repository read emits its trace record exactly when it writes
    state; the record then carries the configured repository name, the
    fetched repository id and the resolved workspace id. *)
Theorem trace_iff_state_written
    (ListValueFrom : list string → types.List * diag.Diagnostics)
    (client : Client) (data : RepositoryDataSourceModel.t) (cfg : diag.Diagnostics) :
  let result :=
    run (RepositoryDataSource.Read ListValueFrom client (mkRequest (data, cfg))) in
  let workspaceId :=
    resolved_workspaceId client (types.ValueString (WorkspaceId data)) in
  (traces (Events result) = [] ↔ State result = None) ∧
  ∀ rp, GetRepository client workspaceId (types.ValueString (Name data)) = inl rp →
        State result ≠ None →
        traces (Events result)
        = [Trace "read repository data"
             [("name", types.ValueString (Name data)); ("id", Repository.Id rp);
              ("workspace", workspaceId)]].
Proof.
  intros result workspaceId. subst result workspaceId.
  destruct (diag.HasError cfg) eqn:Hcfg.
  { rewrite (Read_config_error _ _ _ _ Hcfg). cbn. split; [tauto|].
    intros rp _ H. now destruct H. }
  destruct (GetRepository client
              (resolved_workspaceId client (types.ValueString (WorkspaceId data)))
              (types.ValueString (Name data))) as [rp|err] eqn:Hrepo.
  2:{ rewrite (Read_repository_error _ _ _ _ err Hcfg Hrepo). cbn.
      split; [tauto|]. intros rp [=]. }
  destruct (Repository.ChildRepositories rp) as [children|] eqn:Hch.
  - rewrite (Read_children _ _ _ _ rp children Hcfg Hrepo Hch). cbv zeta.
    destruct (diag.HasError (diag.Append _ _)); cbn.
    + split; [tauto|]. intros rp' _ H. now destruct H.
    + split; [split; discriminate|]. now intros rp' [= <-] _.
  - rewrite (Read_nil_children _ _ _ _ rp Hcfg Hrepo Hch). cbn.
    split; [split; discriminate|]. now intros rp' [= <-] _.
Qed.

(** ** Further properties of [WorkspaceDataSource.Read] *)

Lemma workspace_Read_config_error client data cfg :
  diag.HasError cfg = true →
  run (WorkspaceDataSource.Read client (mkRequest (data, cfg)))
  = mkResponse (diag.Append [] cfg) None [].
Proof.
  intros Hcfg. run_handler. now rewrite HasError_Append_nil, Hcfg.
Qed.

(** X10. A configuration that does not decode stops the workspace read at
    once: the client is not called, no state is written and the diagnostics
    are those of the decoding. *)
Theorem workspace_read_stops_on_config_error
    (client : Client) (data : WorkspaceResourceModel.t) (cfg : diag.Diagnostics) :
  diag.HasError cfg = true →
  run (WorkspaceDataSource.Read client (mkRequest (data, cfg)))
  = mkResponse (diag.Append [] cfg) None [].
Proof.
  intros Hcfg. run_handler.
  rewrite HasError_Append_nil, Hcfg. reflexivity.
Qed.

Lemma workspace_read_stops_on_config_error_witness :
  run (WorkspaceDataSource.Read Sample.client
         (mkRequest (fst (ConfigGet (Sample.workspace_config "acme")),
                     [diag.NewErrorDiagnostic "Value Conversion Error" "not a string"])))
  = mkResponse [diag.NewErrorDiagnostic "Value Conversion Error" "not a string"] None [].
Proof.
  exact (workspace_read_stops_on_config_error Sample.client
           (fst (ConfigGet (Sample.workspace_config "acme")))
           [diag.NewErrorDiagnostic "Value Conversion Error" "not a string"] eq_refl).
Defined.

(** X11. The workspace read writes state exactly when its diagnostics hold
    no error, for every configuration and client. *)
Theorem workspace_read_writes_iff_no_error
    (client : Client) (data : WorkspaceResourceModel.t) (cfg : diag.Diagnostics) :
  let result := run (WorkspaceDataSource.Read client (mkRequest (data, cfg))) in
  is_Some (State result) ↔ diag.HasError (Diagnostics result) = false.
Proof.
  intros result. subst result.
  destruct (diag.HasError cfg) eqn:Hcfg.
  { rewrite (workspace_Read_config_error _ _ _ Hcfg). cbn [State Diagnostics].
    rewrite HasError_Append_nil, Hcfg. split; [intros [? [=]]|discriminate]. }
  destruct (GetWorkspace client (types.ValueString (WorkspaceResourceModel.Name data)))
    as [ws|err] eqn:Hws.
  - rewrite (workspace_Read_found _ _ _ ws Hcfg Hws). cbn [State Diagnostics].
    rewrite HasError_Append_nil, Hcfg. split; eauto.
  - rewrite (workspace_Read_failed _ _ _ err Hcfg Hws). cbn [State Diagnostics].
    unfold diag.AddError. rewrite HasError_Append, orb_true_r.
    split; [intros [? [=]]|discriminate].
Qed.

(** X12. The two readers agree on the workspace: when both write state for
    the same workspace reference, the [workspace] attribute of the
    repository state is the [id] of the workspace state. *)
Theorem readers_agree_on_workspace_id
    (ListValueFrom : list string → types.List * diag.Diagnostics)
    (client : Client)
    (wdata wout : WorkspaceResourceModel.t) (wcfg : diag.Diagnostics)
    (rdata rout : RepositoryDataSourceModel.t) (rcfg : diag.Diagnostics) :
  types.ValueString (WorkspaceResourceModel.Name wdata)
  = types.ValueString (WorkspaceId rdata) →
  State (run (WorkspaceDataSource.Read client (mkRequest (wdata, wcfg)))) = Some wout →
  State (run (RepositoryDataSource.Read ListValueFrom client (mkRequest (rdata, rcfg))))
  = Some rout →
  WorkspaceId rout = WorkspaceResourceModel.Id wout.
Proof.
  intros Href Hw Hr.
  destruct (diag.HasError wcfg) eqn:Hwcfg.
  { rewrite (workspace_Read_config_error _ _ _ Hwcfg) in Hw. discriminate. }
  destruct (GetWorkspace client (types.ValueString (WorkspaceResourceModel.Name wdata)))
    as [ws|err] eqn:Hws.
  2:{ rewrite (workspace_Read_failed _ _ _ err Hwcfg Hws) in Hw. discriminate. }
  rewrite (workspace_Read_found _ _ _ ws Hwcfg Hws) in Hw. cbn [State] in Hw.
  injection Hw as <-. cbn [WorkspaceResourceModel.Id].
  destruct (Read_written _ _ _ _ _ Hr) as (_ & rp & Hrepo & _).
  destruct (Read_written_shape _ _ _ _ _ _ Hrepo Hr) as [l ->].
  rewrite written_WorkspaceId. unfold resolved_workspaceId.
  now rewrite <- Href, Hws.
Qed.

Lemma readers_agree_on_workspace_id_witness :
  ∃ wout rout,
    State (run (WorkspaceDataSource.Read Sample.client (Sample.workspace_config "acme")))
    = Some wout ∧
    State (run (RepositoryDataSource.Read ListValueFrom_strings Sample.client
                  (Sample.config "acme" "libs"))) = Some rout ∧
    WorkspaceId rout = WorkspaceResourceModel.Id wout ∧
    WorkspaceId rout = types.StringValue "w-1".
Proof.
  eexists. eexists. split; [reflexivity|]. split; [reflexivity|].
  split; [|reflexivity].
  exact (readers_agree_on_workspace_id ListValueFrom_strings Sample.client
           (fst (ConfigGet (Sample.workspace_config "acme"))) _ []
           (fst (ConfigGet (Sample.config "acme" "libs"))) _ []
           eq_refl eq_refl eq_refl).
Defined.

(** ** [Metadata], [Schema] and [Configure] *)

Lemma last_byte_append (a s : string) :
  s ≠ "" → last_byte (a +:+ s) = last_byte s.
Proof.
  intros Hs. induction a as [|c a IH]; [reflexivity|].
  rewrite append_String. simpl. rewrite IH.
  destruct (a +:+ s) eqn:E; [|reflexivity].
  destruct a; [|discriminate E]. now destruct Hs.
Qed.

Lemma length_append (a b : string) :
  String.length (a +:+ b) = (String.length a + String.length b)%nat.
Proof.
  induction a as [|c a IH]; [reflexivity|].
  rewrite append_String. simpl. now rewrite IH.
Qed.

Lemma append_inj_l (s : string) : ∀ a b : string, a +:+ s = b +:+ s → a = b.
Proof.
  induction a as [|c a IH]; intros [|d b] H.
  - reflexivity.
  - apply (f_equal String.length) in H.
    rewrite append_String, append_empty in H. simpl in H.
    rewrite length_append in H. lia.
  - apply (f_equal String.length) in H.
    rewrite append_String, append_empty in H. simpl in H.
    rewrite length_append in H. lia.
  - rewrite !append_String in H. injection H as -> H. f_equal. now apply IH.
Qed.

(** X13. The type names of the two data sources never collide, whatever
    the provider type names, and each determines its provider type name,
    which it has as a prefix. *)
Theorem metadata_type_names (req1 req2 : datasource.MetadataRequest) :
  datasource.TypeName (WorkspaceDataSource_Metadata req1)
  ≠ datasource.TypeName (RepositoryDataSource_Metadata req2) ∧
  (datasource.TypeName (WorkspaceDataSource_Metadata req1)
   = datasource.TypeName (WorkspaceDataSource_Metadata req2) → req1 = req2) ∧
  (datasource.TypeName (RepositoryDataSource_Metadata req1)
   = datasource.TypeName (RepositoryDataSource_Metadata req2) → req1 = req2) ∧
  strings.HasPrefix (datasource.TypeName (WorkspaceDataSource_Metadata req1))
    (datasource.ProviderTypeName req1) = true ∧
  strings.HasPrefix (datasource.TypeName (RepositoryDataSource_Metadata req1))
    (datasource.ProviderTypeName req1) = true.
Proof.
  destruct req1 as [p1], req2 as [p2]. cbn.
  split; [|split; [|split; [|split]]].
  - intros H. apply (f_equal last_byte) in H.
    rewrite !last_byte_append in H by discriminate. discriminate H.
  - intros H. f_equal. exact (append_inj_l _ _ _ H).
  - intros H. f_equal. exact (append_inj_l _ _ _ H).
  - apply HasPrefix_append.
  - apply HasPrefix_append.
Qed.

(** X14. Each schema declares exactly the attributes its model has [tfsdk]
    tags for, with the kind of the tagged field; no tag is used twice. *)
Theorem schemas_match_models :
  schema.kind <$> schema.Attributes RepositoryDataSource_Schema
  = list_to_map RepositoryDataSourceModel_tfsdk ∧
  NoDup (RepositoryDataSourceModel_tfsdk.*1) ∧
  schema.kind <$> schema.Attributes WorkspaceDataSource_Schema
  = list_to_map WorkspaceDataSourceModel_tfsdk ∧
  NoDup (WorkspaceDataSourceModel_tfsdk.*1).
Proof.
  split; [|split; [|split]].
  - vm_compute. reflexivity.
  - apply (bool_decide_unpack _). vm_compute. exact I.
  - vm_compute. reflexivity.
  - apply (bool_decide_unpack _). vm_compute. exact I.
Qed.

(** X15. The repository schema has the attributes [name] and [workspace],
    both required; they are its only required attributes, every other
    attribute is computed, and none is both required and computed. *)
Theorem repository_schema_required_or_computed :
  (∃ attr, schema.Attributes RepositoryDataSource_Schema !! "name" = Some attr ∧
           schema.Required attr = true) ∧
  (∃ attr, schema.Attributes RepositoryDataSource_Schema !! "workspace" = Some attr ∧
           schema.Required attr = true) ∧
  ∀ (name : string) (attr : schema.Attribute),
    schema.Attributes RepositoryDataSource_Schema !! name = Some attr →
    schema.Computed attr = negb (schema.Required attr) ∧
    (schema.Required attr = true ↔ name = "name" ∨ name = "workspace").
Proof.
  split; [|split].
  - eexists. split; reflexivity.
  - eexists. split; reflexivity.
  - change (map_Forall
              (λ (name : string) attr,
                 schema.Computed attr = negb (schema.Required attr) ∧
                 (schema.Required attr = true ↔ name = "name" ∨ name = "workspace"))
              (schema.Attributes RepositoryDataSource_Schema)).
    apply (bool_decide_unpack _). vm_compute. exact I.
Qed.

Lemma unexpected_configure_type_names (typeName : string) :
  strings.Contains (unexpected_configure_type typeName) typeName = true.
Proof. unfold unexpected_configure_type. apply Contains_append. Qed.

(** X16. [WorkspaceDataSource.Configure], on diagnostics without error,
    reports an error exactly when the provider data is neither nil nor a
    [*repoflow.Client]; the receiver is then unchanged and the one error
    names the dynamic type. Nil provider data changes nothing, and a client
    pointer is stored without any diagnostic. *)
Theorem workspace_configure_outcome
    (d : WorkspaceDataSource_t) (req : datasource.ConfigureRequest)
    (diags : diag.Diagnostics) :
  diag.HasError diags = false →
  let result := WorkspaceDataSource_Configure d req diags in
  (diag.HasError (snd result) = true
   ↔ ∃ typeName, datasource.ProviderData req = Some (datasource.OtherValue typeName)) ∧
  (∀ typeName,
     datasource.ProviderData req = Some (datasource.OtherValue typeName) →
     fst result = d ∧
     ∃ detail,
       diag.Errors (snd result)
       = [diag.NewErrorDiagnostic "Unexpected Resource Configure Type" detail] ∧
       strings.Contains detail typeName = true) ∧
  (datasource.ProviderData req = None → result = (d, diags)) ∧
  (∀ p, datasource.ProviderData req = Some (datasource.ClientPointer p) →
        WorkspaceDataSource_client (fst result) = p ∧ snd result = diags).
Proof.
  intros Hdiags result. subst result. unfold WorkspaceDataSource_Configure.
  destruct (datasource.ProviderData req) as [[p|typeName]|]; cbn [fst snd].
  - rewrite Hdiags. split; [split; [discriminate|intros [? [=]]]|].
    split; [intros ? [=]|]. split; [discriminate|]. now intros ? [= <-].
  - split.
    { unfold diag.AddError. rewrite HasError_Append, orb_true_r. split; eauto. }
    split; [|split; [discriminate|intros ? [=]]].
    intros ? [= <-]. split; [reflexivity|]. eexists. split.
    + now apply Errors_AddError_fresh.
    + apply unexpected_configure_type_names.
  - rewrite Hdiags. split; [split; [discriminate|intros [? [=]]]|].
    split; [intros ? [=]|]. split; [reflexivity|intros ? [=]].
Qed.

Lemma workspace_configure_outcome_witness :
  WorkspaceDataSource_client
    (fst (WorkspaceDataSource_Configure NewWorkspaceDataSource
            (datasource.mkConfigureRequest
               (Some (datasource.ClientPointer (Some Sample.client)))) []))
  = Some Sample.client ∧
  fst (WorkspaceDataSource_Configure NewWorkspaceDataSource
         (datasource.mkConfigureRequest (Some (datasource.OtherValue "*http.Client"))) [])
  = NewWorkspaceDataSource.
Proof.
  split.
  - exact (proj1 (proj2 (proj2 (proj2
             (workspace_configure_outcome NewWorkspaceDataSource
                (datasource.mkConfigureRequest
                   (Some (datasource.ClientPointer (Some Sample.client))))
                [] eq_refl))) (Some Sample.client) eq_refl)).
  - exact (proj1 (proj1 (proj2
             (workspace_configure_outcome NewWorkspaceDataSource
                (datasource.mkConfigureRequest
                   (Some (datasource.OtherValue "*http.Client")))
                [] eq_refl)) "*http.Client" eq_refl)).
Defined.

(** X17. [RepositoryDataSource.Configure] behaves in the same way: on
    diagnostics without error it reports an error exactly when the provider
    data is neither nil nor a [*repoflow.Client], leaving the receiver
    unchanged and naming the dynamic type in the one error; nil provider
    data changes nothing, and a client pointer is stored without any
    diagnostic. *)
Theorem repository_configure_outcome
    (d : RepositoryDataSource_t) (req : datasource.ConfigureRequest)
    (diags : diag.Diagnostics) :
  diag.HasError diags = false →
  let result := RepositoryDataSource_Configure d req diags in
  (diag.HasError (snd result) = true
   ↔ ∃ typeName, datasource.ProviderData req = Some (datasource.OtherValue typeName)) ∧
  (∀ typeName,
     datasource.ProviderData req = Some (datasource.OtherValue typeName) →
     fst result = d ∧
     ∃ detail,
       diag.Errors (snd result)
       = [diag.NewErrorDiagnostic "Unexpected Resource Configure Type" detail] ∧
       strings.Contains detail typeName = true) ∧
  (datasource.ProviderData req = None → result = (d, diags)) ∧
  (∀ p, datasource.ProviderData req = Some (datasource.ClientPointer p) →
        RepositoryDataSource_client (fst result) = p ∧ snd result = diags).
Proof.
  intros Hdiags result. subst result. unfold RepositoryDataSource_Configure.
  destruct (datasource.ProviderData req) as [[p|typeName]|]; cbn [fst snd].
  - rewrite Hdiags. split; [split; [discriminate|intros [? [=]]]|].
    split; [intros ? [=]|]. split; [discriminate|]. now intros ? [= <-].
  - split.
    { unfold diag.AddError. rewrite HasError_Append, orb_true_r. split; eauto. }
    split; [|split; [discriminate|intros ? [=]]].
    intros ? [= <-]. split; [reflexivity|]. eexists. split.
    + now apply Errors_AddError_fresh.
    + apply unexpected_configure_type_names.
  - rewrite Hdiags. split; [split; [discriminate|intros [? [=]]]|].
    split; [intros ? [=]|]. split; [reflexivity|intros ? [=]].
Qed.

Lemma repository_configure_outcome_witness :
  RepositoryDataSource_client
    (fst (RepositoryDataSource_Configure NewRepositoryDataSource
            (datasource.mkConfigureRequest
               (Some (datasource.ClientPointer (Some Sample.client)))) []))
  = Some Sample.client ∧
  RepositoryDataSource_Configure NewRepositoryDataSource
    (datasource.mkConfigureRequest None) []
  = (NewRepositoryDataSource, []).
Proof.
  split.
  - exact (proj1 (proj2 (proj2 (proj2
             (repository_configure_outcome NewRepositoryDataSource
                (datasource.mkConfigureRequest
                   (Some (datasource.ClientPointer (Some Sample.client))))
                [] eq_refl))) (Some Sample.client) eq_refl)).
  - exact (proj1 (proj2 (proj2
             (repository_configure_outcome NewRepositoryDataSource
                (datasource.mkConfigureRequest None) [] eq_refl))) eq_refl).
Defined.

(** X18. The repository read only ever appends to the diagnostics: those
    of the decoding come first in the response, in their order, whatever
    happens afterwards. *)
Theorem decoding_diagnostics_kept
    (ListValueFrom : list string → types.List * diag.Diagnostics)
    (client : Client) (data : RepositoryDataSourceModel.t) (cfg : diag.Diagnostics) :
  ∃ added,
    Diagnostics
      (run (RepositoryDataSource.Read ListValueFrom client (mkRequest (data, cfg))))
    = diag.Append [] cfg ++ added.
Proof.
  destruct (diag.HasError cfg) eqn:Hcfg.
  - rewrite (Read_config_error _ _ _ _ Hcfg). exists []. cbn [Diagnostics].
    now rewrite app_nil_r.
  - destruct (Read_diags_extend ListValueFrom client data cfg Hcfg) as [added ->].
    unfold workspace_diags. destruct (GetWorkspace client _) as [ws|err].
    + now exists added.
    + destruct (Append_extends
                  [diag.NewErrorDiagnostic "Client Error"
                     (RepositoryDataSource.unable_to_get_workspace "" err)]
                  (diag.Append [] cfg)) as [mid E].
      unfold diag.AddError. rewrite E. exists (mid ++ added). now rewrite app_assoc.
Qed.
